(** * ShowBay task service

    A shallow embedding of the task-lifecycle service (api/tasks.py), of its
    enrichment client (utils/external_api.py), of the request and response
    schemas (schemas/task.py, models/task.py) and of the error handlers
    (utils/exception_handlers.py), followed by the properties of the
    specification that were checked against it.

    Python exceptions are values of [exn]; a handler runs in the monad [M],
    which threads the state of the world (the task table, the id sequence,
    the clock, the remote HTTP service, the log) and either returns a value
    or raises. *)

From Stdlib Require Import ZArith List String Ascii Lia Bool DecimalString.
Import ListNotations.
Local Open Scope string_scope.
Local Open Scope Z_scope.

(** ** Python values *)

(** [str(n)] for an [int]. *)
Definition str_int (z : Z) : string := NilZero.string_of_int (Z.to_int z).

Definition str_nat (n : nat) : string := str_int (Z.of_nat n).

(** [len(s)] for a [str], as an [int]. *)
Definition len (s : string) : Z := Z.of_nat (String.length s).

(** The length bounds of a Field(min_length=..., max_length=...). *)
Definition within (min_length max_length : Z) (s : string) : bool :=
  (min_length <=? len s) && (len s <=? max_length).

Definition opt_within (max_length : Z) (o : option string) : bool :=
  match o with
  | Some s => within 0 max_length s
  | None => true
  end.

(** A Python float as json.loads gives it: a finite value m * 2^e, an
    infinity, or NaN (json.loads reads the literals NaN, Infinity and
    -Infinity). *)
Inductive pyfloat : Type :=
| FFinite (m e : Z)
| FInf (negative : bool)
| FNaN.

(** A decoded JSON document (json.loads). *)
#[local] Set Warnings "-register-all".
Inductive json : Type :=
| JNull
| JBool (b : bool)
| JInt (z : Z)
| JFloat (x : pyfloat)
| JStr (s : string)
| JList (l : list json)
| JDict (items : list (string * json)).

(** json.dumps(v, allow_nan=False) succeeds: no NaN and no infinity
    occurs anywhere in [v]. *)
Fixpoint json_compliant (v : json) : bool :=
  match v with
  | JFloat (FFinite _ _) => true
  | JFloat _ => false
  | JList l => forallb json_compliant l
  | JDict items => forallb (fun kv => json_compliant (snd kv)) items
  | _ => true
  end.

(** A value passed to [setattr]. *)
Inductive pyvalue : Type :=
| PNone
| PStr (s : string)
| PInt (z : Z)
| PDatetime (d : Z).

(** [d.get(key)] on the items of a decoded object; json.loads keeps the
    last of several bindings of one key. *)
Definition dict_get (key : string) (items : list (string * json)) : option json :=
  fold_left (fun acc kv => if String.eqb (fst kv) key then Some (snd kv) else acc)
            items None.

(** Timestamps, as microseconds on the wall clock. *)
Definition datetime : Type := Z.

(** ** Exceptions *)

Inductive exn : Type :=
| HTTPException (status_code : Z) (detail : string)
| ExternalAPIException (message : string) (status_code : option Z)
| TimeoutException (message : string)   (* httpx.TimeoutException *)
| RequestError (message : string)       (* any other httpx.RequestError *)
| TypeError (message : string)
| ValueError (message : string)         (* also json.JSONDecodeError *)
| ZeroDivisionError (message : string)
| ValidationError (message : string)    (* pydantic_core.ValidationError *)
| IntegrityError (message : string)     (* sqlalchemy.exc.IntegrityError *)
| DataError (message : string).         (* sqlalchemy.exc.DataError *)

(** [isinstance(e, C)] for the classes named in an [except] clause.
    httpx.TimeoutException derives from httpx.RequestError, and every class
    above derives from [Exception]. *)
Definition isinstance_HTTPException (e : exn) : bool :=
  match e with HTTPException _ _ => true | _ => false end.

Definition isinstance_ExternalAPIException (e : exn) : bool :=
  match e with ExternalAPIException _ _ => true | _ => false end.

Definition isinstance_TimeoutException (e : exn) : bool :=
  match e with TimeoutException _ => true | _ => false end.

Definition isinstance_RequestError (e : exn) : bool :=
  match e with TimeoutException _ | RequestError _ => true | _ => false end.

(** [str(e)]. ExternalAPIException passes its message to [Exception];
    starlette's HTTPException prints status and detail. *)
Definition str_exn (e : exn) : string :=
  match e with
  | HTTPException status_code detail => str_int status_code ++ ": " ++ detail
  | ExternalAPIException message _ => message
  | TimeoutException message => message
  | RequestError message => message
  | TypeError message => message
  | ValueError message => message
  | ZeroDivisionError message => message
  | ValidationError message => message
  | IntegrityError message => message
  | DataError message => message
  end.

Inductive Result (A : Type) : Type :=
| Ok (a : A)
| Raise (e : exn).
Arguments Ok {A} a.
Arguments Raise {A} e.

(** ** models/task.py *)

Module Task.

(** class Task(TaskBase, table=True). A Python attribute holds whatever is
    assigned to it, so the fields declared [str] are [option string] here:
    [setattr] can store [None] in them, and the NOT NULL column rejects it
    when the session flushes. *)
Record t : Type := mk {
  id : option Z;
  title : option string;
  description : option string;
  status : option string;
  priority : option string;
  external_api_data : option string;
  external_id : option Z;
  user_id : option string;
  created_at : datetime;
  updated_at : datetime;
  completed_at : option datetime
}.

Definition set_id (v : option Z) (x : t) : t :=
  mk v (title x) (description x) (status x) (priority x)
     (external_api_data x) (external_id x) (user_id x)
     (created_at x) (updated_at x) (completed_at x).

Definition set_title (v : option string) (x : t) : t :=
  mk (id x) v (description x) (status x) (priority x)
     (external_api_data x) (external_id x) (user_id x)
     (created_at x) (updated_at x) (completed_at x).

Definition set_description (v : option string) (x : t) : t :=
  mk (id x) (title x) v (status x) (priority x)
     (external_api_data x) (external_id x) (user_id x)
     (created_at x) (updated_at x) (completed_at x).

Definition set_status (v : option string) (x : t) : t :=
  mk (id x) (title x) (description x) v (priority x)
     (external_api_data x) (external_id x) (user_id x)
     (created_at x) (updated_at x) (completed_at x).

Definition set_priority (v : option string) (x : t) : t :=
  mk (id x) (title x) (description x) (status x) v
     (external_api_data x) (external_id x) (user_id x)
     (created_at x) (updated_at x) (completed_at x).

Definition set_external_api_data (v : option string) (x : t) : t :=
  mk (id x) (title x) (description x) (status x) (priority x)
     v (external_id x) (user_id x)
     (created_at x) (updated_at x) (completed_at x).

Definition set_user_id (v : option string) (x : t) : t :=
  mk (id x) (title x) (description x) (status x) (priority x)
     (external_api_data x) (external_id x) v
     (created_at x) (updated_at x) (completed_at x).

Definition set_updated_at (v : datetime) (x : t) : t :=
  mk (id x) (title x) (description x) (status x) (priority x)
     (external_api_data x) (external_id x) (user_id x)
     (created_at x) v (completed_at x).

Definition set_external_id (v : option Z) (x : t) : t :=
  mk (id x) (title x) (description x) (status x) (priority x)
     (external_api_data x) v (user_id x)
     (created_at x) (updated_at x) (completed_at x).

Definition set_created_at (v : datetime) (x : t) : t :=
  mk (id x) (title x) (description x) (status x) (priority x)
     (external_api_data x) (external_id x) (user_id x)
     v (updated_at x) (completed_at x).

Definition set_completed_at (v : option datetime) (x : t) : t :=
  mk (id x) (title x) (description x) (status x) (priority x)
     (external_api_data x) (external_id x) (user_id x)
     (created_at x) (updated_at x) v.

(** A row of the task table as the declarations of the model allow it:
    a primary key, the three NOT NULL strings, and the length bounds. *)
Definition valid (x : t) : bool :=
  match id x, title x, status x, priority x with
  | Some _, Some ti, Some st, Some pr =>
      within 1 255 ti && opt_within 1000 (description x)
      && within 0 50 st && within 0 20 pr && opt_within 100 (user_id x)
  | _, _, _, _ => false
  end.

End Task.

(** ** The world a request runs in *)

(** An httpx.Response: status, raw text, and what [response.json()] gives
    ([None] when the body does not decode, which raises with the
    decoder's message for that body). *)
Record HttpResponse : Type := mkHttpResponse {
  resp_status_code : Z;
  resp_text : string;
  resp_json : option json;
  resp_json_error : string
}.

(** What one outbound request ends in: a response, or an exception raised
    by the client. *)
Inductive HttpOutcome : Type :=
| Responded (r : HttpResponse)
| Failed (e : exn).

Inductive Level : Type := INFO | WARNING | ERROR.

Record World : Type := mkWorld {
  rows : list Task.t;                (* the task table, in storage order *)
  next_id : Z;                      (* the sequence behind the primary key *)
  clock : nat -> datetime;          (* successive readings of utcnow() *)
  ticks : nat;                      (* readings taken so far *)
  upstream : string -> HttpOutcome; (* the remote service, by GET url *)
  sent : list string;               (* outbound GETs issued so far *)
  logs : list (Level * string)
}.

Definition set_rows (v : list Task.t) (w : World) : World :=
  mkWorld v (next_id w) (clock w) (ticks w) (upstream w) (sent w) (logs w).

Definition set_next_id (v : Z) (w : World) : World :=
  mkWorld (rows w) v (clock w) (ticks w) (upstream w) (sent w) (logs w).

Definition set_ticks (v : nat) (w : World) : World :=
  mkWorld (rows w) (next_id w) (clock w) v (upstream w) (sent w) (logs w).

Definition set_sent (v : list string) (w : World) : World :=
  mkWorld (rows w) (next_id w) (clock w) (ticks w) (upstream w) v (logs w).

Definition set_logs (v : list (Level * string)) (w : World) : World :=
  mkWorld (rows w) (next_id w) (clock w) (ticks w) (upstream w) (sent w) v.

(** ** The handler monad: state and exceptions *)

Definition M (A : Type) : Type := World -> Result A * World.

Definition ret {A} (a : A) : M A := fun w => (Ok a, w).

Definition raise {A} (e : exn) : M A := fun w => (Raise e, w).

Definition bind {A B} (m : M A) (k : A -> M B) : M B :=
  fun w =>
    match m w with
    | (Ok a, w') => k a w'
    | (Raise e, w') => (Raise e, w')
    end.

(** [try: body except ...: handler]. The handler receives the exception
    and decides, clause by clause, what to do; what the body did to the
    world before raising stays done. *)
Definition try_except {A} (body : M A) (handler : exn -> M A) : M A :=
  fun w =>
    match body w with
    | (Ok a, w') => (Ok a, w')
    | (Raise e, w') => handler e w'
    end.

Definition lift {A} (r : Result A) : M A := fun w => (r, w).

Notation "x <- m ;; k" := (bind m (fun x => k))
  (at level 61, m at next level, right associativity).
Notation "m ;;; k" := (bind m (fun _ => k))
  (at level 61, right associativity).

(** datetime.utcnow(): one more reading of the clock. *)
Definition utcnow : M datetime :=
  fun w => (Ok (clock w (ticks w)), set_ticks (S (ticks w)) w).

(** [datetime()], which is what [x.__class__()] is for a datetime [x]: the
    constructor requires year, month and day, and raises without them. *)
Definition datetime_noargs : M datetime :=
  raise (TypeError "function missing required argument 'year' (pos 1)").

Definition logger (lvl : Level) (msg : string) : M unit :=
  fun w => (Ok tt, set_logs (logs w ++ [(lvl, msg)])%list w).

(** ** The persistence provider (sqlmodel Session over the task table) *)

Module Session.

Definition has_id (task_id : Z) (t : Task.t) : bool :=
  match Task.id t with
  | Some i => Z.eqb i task_id
  | None => false
  end.

(** session.get(Task, task_id) *)
Definition get (task_id : Z) : M (option Task.t) :=
  fun w => (Ok (find (has_id task_id) (rows w)), w).

(** title, status and priority are declared [str] without a None default,
    so their columns are NOT NULL. *)
Definition not_null (t : Task.t) : bool :=
  match Task.title t, Task.status t, Task.priority t with
  | Some _, Some _, Some _ => true
  | _, _, _ => false
  end.

(** The table is the one of the configured database (DATABASE_URL names
    a PostgreSQL): an int attribute is an INTEGER column, which holds
    -2^31 .. 2^31 - 1 and rejects anything else; OFFSET and LIMIT are
    bigint, and must not be negative. The primary key comes from the
    column's own sequence, which never hands a value out twice. *)
Definition INTEGER_MAX : Z := 2147483647.
Definition BIGINT_MAX : Z := 9223372036854775807.

Definition fits_integer (o : option Z) : bool :=
  match o with
  | Some z => (- INTEGER_MAX - 1 <=? z) && (z <=? INTEGER_MAX)
  | None => true
  end.

Definition fits_bigint (o : option Z) : bool :=
  match o with
  | Some n => (0 <=? n) && (n <=? BIGINT_MAX)
  | None => true
  end.

(** session.add(t); session.commit(); session.refresh(t).
    A pending object (no id yet) is inserted under the next value of the
    sequence; a persistent one replaces the row with its primary key. The
    result is the object as reloaded from the table. The statement fails
    on a null in a NOT NULL column and on an external_id the INTEGER
    column cannot hold; nothing is written then. *)
Definition add_commit_refresh (t : Task.t) : M Task.t :=
  fun w =>
    if negb (not_null t) then
      (Raise (IntegrityError "null value violates not-null constraint"), w)
    else if negb (fits_integer (Task.external_id t)) then
      (Raise (DataError "integer out of range"), w)
    else
      match Task.id t with
      | None =>
          let t' := Task.set_id (Some (next_id w)) t in
          (Ok t', set_next_id (next_id w + 1) (set_rows (rows w ++ [t'])%list w))
      | Some i =>
          (Ok t, set_rows (map (fun r => if has_id i r then t else r) (rows w)) w)
      end.

(** session.delete(t); session.commit() *)
Definition delete_commit (t : Task.t) : M unit :=
  fun w =>
    match Task.id t with
    | Some i => (Ok tt, set_rows (filter (fun r => negb (has_id i r)) (rows w)) w)
    | None => (Ok tt, w)
    end.

(** The statements the service builds: select(Task) with where clauses on
    status and priority, then offset and limit. *)
Inductive Clause : Type :=
| StatusEq (s : string)      (* Task.status == s *)
| PriorityEq (s : string).   (* Task.priority == s *)

Record Select : Type := mkSelect {
  wheres : list Clause;
  q_offset : option Z;
  q_limit : option Z
}.

Definition select_Task : Select := mkSelect [] None None.

Definition where_ (c : Clause) (q : Select) : Select :=
  mkSelect (wheres q ++ [c])%list (q_offset q) (q_limit q).

Definition offset (n : Z) (q : Select) : Select :=
  mkSelect (wheres q) (Some n) (q_limit q).

Definition limit (n : Z) (q : Select) : Select :=
  mkSelect (wheres q) (q_offset q) (Some n).

Definition opt_string_eqb (o : option string) (s : string) : bool :=
  match o with
  | Some s' => String.eqb s' s
  | None => false
  end.

Definition holds (c : Clause) (t : Task.t) : bool :=
  match c with
  | StatusEq s => opt_string_eqb (Task.status t) s
  | PriorityEq s => opt_string_eqb (Task.priority t) s
  end.

(** session.exec(q).all() *)
Definition exec_all (q : Select) : M (list Task.t) :=
  fun w =>
    if negb (fits_bigint (q_offset q) && fits_bigint (q_limit q)) then
      (Raise (DataError "OFFSET and LIMIT must be non-negative bigint values"), w)
    else
    let matching := filter (fun t => forallb (fun c => holds c t) (wheres q)) (rows w) in
    let skipped :=
      match q_offset q with
      | Some n => skipn (Z.to_nat n) matching
      | None => matching
      end in
    let page :=
      match q_limit q with
      | Some n => firstn (Z.to_nat n) skipped
      | None => skipped
      end in
    (Ok page, w).

End Session.

(** ** Request validation (pydantic, as FastAPI runs it on a JSON body) *)

Module Pydantic.

(** One entry of [exc.errors()]. *)
Record ErrorDetails : Type := mkError {
  loc : list string;
  msg : string;
  type : string;
  input : option json
}.

(** A field validator gives the value or the type and message of the
    violated rule. *)
Definition FieldResult (A : Type) : Type := (string * string) + A.

Definition characters (n : Z) : string :=
  str_int n ++ (if Z.eqb n 1 then " character" else " characters").

(** A [str] field with Field(min_length=..., max_length=...); no
    min_length is min_length 0. Only a JSON string is a valid string. *)
Definition str_field (min_length max_length : Z) (v : json) : FieldResult string :=
  match v with
  | JStr s =>
      if len s <? min_length then
        inl ("string_too_short", "String should have at least " ++ characters min_length)
      else if max_length <? len s then
        inl ("string_too_long", "String should have at most " ++ characters max_length)
      else inr s
  | _ => inl ("string_type", "Input should be a valid string")
  end.

(** Optional[...]: null is accepted as None. *)
Definition optional {A} (validator : json -> FieldResult A) (v : json)
  : FieldResult (option A) :=
  match v with
  | JNull => inr None
  | _ => match validator v with
         | inl e => inl e
         | inr a => inr (Some a)
         end
  end.

(** The integer a finite float m * 2^e stands for, when it has no
    fractional part. *)
Definition float_integral (m e : Z) : option Z :=
  if 0 <=? e then Some (m * 2 ^ e)
  else if Z.eqb (m mod 2 ^ (- e)) 0 then Some (m / 2 ^ (- e))
  else None.

(** pydantic's reading of a float as an int, in lax mode: it must be
    finite, without fractional part, and strictly between -2^63 and
    2^63. *)
Definition float_as_int (x : pyfloat) : FieldResult Z :=
  match x with
  | FFinite m e =>
      match float_integral m e with
      | Some z =>
          if (- 2 ^ 63 <? z) && (z <? 2 ^ 63) then inr z
          else inl ("int_parsing_size",
                    "Unable to parse input string as an integer, exceeded maximum size")
      | None => inl ("int_from_float",
                     "Input should be a valid integer, got a number with a fractional part")
      end
  | _ => inl ("finite_number", "Input should be a finite number")
  end.

Section IntField.
(** pydantic's reading of a numeral in a string, in lax mode. *)
Context (str_as_int : string -> option Z).

Definition int_field (v : json) : FieldResult Z :=
  match v with
  | JInt z => inr z
  | JBool b => inr (if b then 1 else 0)
  | JFloat x => float_as_int x
  | JStr s =>
      match str_as_int s with
      | Some z => inr z
      | None => inl ("int_parsing",
                     "Input should be a valid integer, unable to parse string as an integer")
      end
  | _ => inl ("int_type", "Input should be a valid integer")
  end.
End IntField.

(** One field of a body: looked up by name, validated when present,
    defaulted or reported missing when absent. *)
Definition field {A} (name : string) (items : list (string * json))
    (validator : json -> FieldResult A) (default : option A)
  : list ErrorDetails + A :=
  match dict_get name items with
  | Some v =>
      match validator v with
      | inl (ty, m) => inl [mkError ["body"; name] m ty (Some v)]
      | inr a => inr a
      end
  | None =>
      match default with
      | Some d => inr d
      | None => inl [mkError ["body"; name] "Field required" "missing" (Some (JDict items))]
      end
  end.

(** A field whose being set is remembered ([model_fields_set]): [None]
    when the body does not name it. *)
Definition field_set {A} (name : string) (items : list (string * json))
    (validator : json -> FieldResult A)
  : list ErrorDetails + option A :=
  match dict_get name items with
  | Some v =>
      match validator v with
      | inl (ty, m) => inl [mkError ["body"; name] m ty (Some v)]
      | inr a => inr (Some a)
      end
  | None => inr None
  end.

Definition errors_of {A} (r : list ErrorDetails + A) : list ErrorDetails :=
  match r with
  | inl l => l
  | inr _ => []
  end.

Definition not_an_object (body : json) : ErrorDetails :=
  mkError ["body"]
          "Input should be a valid dictionary or object to extract fields from"
          "model_attributes_type" (Some body).

(** A body of null is no body: FastAPI reports the body itself missing. *)
Definition body_missing : ErrorDetails :=
  mkError ["body"] "Field required" "missing" (Some JNull).

End Pydantic.

(** ** schemas/task.py *)

Module TaskCreate.
Import Pydantic.

Record t : Type := mk {
  title : string;
  description : option string;
  status : string;
  priority : string;
  user_id : option string;
  external_id : option Z
}.

(** The Field constraints of the schema, on a value of it. *)
Definition valid (x : t) : bool :=
  within 1 255 (title x) && opt_within 1000 (description x)
  && within 0 50 (status x) && within 0 20 (priority x)
  && opt_within 100 (user_id x).

Section Validate.
Context (str_as_int : string -> option Z).

(** The body of POST /tasks/ read as a TaskCreate. Every field is
    validated, and the errors of all of them are collected. *)
Definition validate (body : json) : list ErrorDetails + t :=
  match body with
  | JDict items =>
      let title := field "title" items (str_field 1 255) None in
      let description :=
        field "description" items (optional (str_field 0 1000)) (Some None) in
      let status := field "status" items (str_field 0 50) (Some "pending") in
      let priority := field "priority" items (str_field 0 20) (Some "medium") in
      let user_id := field "user_id" items (optional (str_field 0 100)) (Some None) in
      let external_id :=
        field "external_id" items (optional (int_field str_as_int)) (Some None) in
      match title, description, status, priority, user_id, external_id with
      | inr a, inr b, inr c, inr d, inr e, inr f => inr (mk a b c d e f)
      | _, _, _, _, _, _ =>
          inl (errors_of title ++ errors_of description ++ errors_of status
               ++ errors_of priority ++ errors_of user_id
               ++ errors_of external_id)%list
      end
  | JNull => inl [body_missing]
  | _ => inl [not_an_object body]
  end.
End Validate.

End TaskCreate.

Module TaskUpdate.
Import Pydantic.

(** Every field is Optional[str] with default None; the outer option is
    membership in [model_fields_set]. *)
Record t : Type := mk {
  title : option (option string);
  description : option (option string);
  status : option (option string);
  priority : option (option string);
  user_id : option (option string)
}.

(** The body of PUT /tasks/{id} read as a TaskUpdate. Keys that are not
    fields of the schema are ignored (pydantic's default for extras). *)
Definition validate (body : json) : list ErrorDetails + t :=
  match body with
  | JDict items =>
      let title := field_set "title" items (optional (str_field 1 255)) in
      let description := field_set "description" items (optional (str_field 0 1000)) in
      let status := field_set "status" items (optional (str_field 0 50)) in
      let priority := field_set "priority" items (optional (str_field 0 20)) in
      let user_id := field_set "user_id" items (optional (str_field 0 100)) in
      match title, description, status, priority, user_id with
      | inr a, inr b, inr c, inr d, inr e => inr (mk a b c d e)
      | _, _, _, _, _ =>
          inl (errors_of title ++ errors_of description ++ errors_of status
               ++ errors_of priority ++ errors_of user_id)%list
      end
  | JNull => inl [body_missing]
  | _ => inl [not_an_object body]
  end.

Definition item (name : string) (v : option (option string))
  : list (string * option string) :=
  match v with
  | Some value => [(name, value)]
  | None => []
  end.

(** task_data.model_dump(exclude_unset=True): the fields that were set,
    in declaration order. *)
Definition model_dump_exclude_unset (x : t) : list (string * option string) :=
  (item "title" (title x) ++ item "description" (description x)
   ++ item "status" (status x) ++ item "priority" (priority x)
   ++ item "user_id" (user_id x))%list.

End TaskUpdate.

Module TaskResponse.

Record t : Type := mk {
  id : Z;
  title : string;
  description : option string;
  status : string;
  priority : string;
  external_id : option Z;
  user_id : option string;
  created_at : datetime;
  updated_at : datetime;
  completed_at : option datetime
}.

(** TaskResponse(id=..., title=..., ...): the constructor validates its
    arguments against the fields of TaskBase and of TaskResponse, and
    raises pydantic's ValidationError when one does not fit. *)
Definition new (id : option Z) (title description status priority : option string)
    (external_id : option Z) (user_id : option string)
    (created_at updated_at : datetime) (completed_at : option datetime)
  : Result t :=
  match id, title, status, priority with
  | Some i, Some ti, Some st, Some pr =>
      if within 1 255 ti && opt_within 1000 description
         && within 0 50 st && within 0 20 pr
      then Ok (mk i ti description st pr external_id user_id
                  created_at updated_at completed_at)
      else Raise (ValidationError "validation error for TaskResponse")
  | _, _, _, _ => Raise (ValidationError "validation error for TaskResponse")
  end.

End TaskResponse.

Module TaskListResponse.

Record t : Type := mk {
  tasks : list TaskResponse.t;
  total : Z;
  page : Z;
  size : Z
}.

End TaskListResponse.

(** ** utils/external_api.py *)

Module ExternalApi.

Section Client.
(** Read from the environment when the module is imported. *)
Context (EXTERNAL_API_BASE_URL : string) (EXTERNAL_API_TIMEOUT : Z).

(** [await client.get(url)] on an httpx.AsyncClient: the request goes
    out, and the remote side decides how it ends. *)
Definition client_get (url : string) : M HttpResponse :=
  fun w =>
    let w' := set_sent (sent w ++ [url])%list w in
    match upstream w url with
    | Responded r => (Ok r, w')
    | Failed e => (Raise e, w')
    end.

(** response.json() *)
Definition response_json (response : HttpResponse) : M json :=
  match resp_json response with
  | Some v => ret v
  | None => raise (ValueError (resp_json_error response))
  end.

(** The three except clauses of every function of the module, tried in
    order; [what] is the wording of the last one. *)
Definition except_clauses {A} (what : string) (e : exn) : M A :=
  if isinstance_TimeoutException e then
    raise (ExternalAPIException
             ("Request to external API timed out after "
              ++ str_int EXTERNAL_API_TIMEOUT ++ " seconds")
             (Some 408))
  else if isinstance_RequestError e then
    raise (ExternalAPIException
             ("Request error when connecting to external API: " ++ str_exn e)
             (Some 502))
  else
    raise (ExternalAPIException
             ("Unexpected error when " ++ what ++ " external API: " ++ str_exn e)
             (Some 500)).

Definition fetch_external_data (external_id : Z) : M json :=
  try_except
    (let url := EXTERNAL_API_BASE_URL ++ "/posts/" ++ str_int external_id in
     response <- client_get url ;;
     if Z.eqb (resp_status_code response) 404 then
       raise (ExternalAPIException
                ("Resource with ID " ++ str_int external_id
                 ++ " not found in external API")
                (Some 404))
     else if 400 <=? resp_status_code response then
       raise (ExternalAPIException
                ("External API request failed with status "
                 ++ str_int (resp_status_code response) ++ ": "
                 ++ resp_text response)
                (Some (resp_status_code response)))
     else response_json response)
    (except_clauses "fetching data from").

(** [await client.get(url, params={"_limit": limit})]: httpx sends the
    parameters as the query string of the address. *)
Definition fetch_external_data_list (limit : Z) : M json :=
  try_except
    (let url := EXTERNAL_API_BASE_URL ++ "/posts" in
     response <- client_get (url ++ "?_limit=" ++ str_int limit) ;;
     if 400 <=? resp_status_code response then
       raise (ExternalAPIException
                ("External API request failed with status "
                 ++ str_int (resp_status_code response) ++ ": "
                 ++ resp_text response)
                (Some (resp_status_code response)))
     else response_json response)
    (except_clauses "fetching data list from").

End Client.

End ExternalApi.

(** ** api/tasks.py *)

Module Tasks.

Definition str_opt_int (o : option Z) : string :=
  match o with
  | Some z => str_int z
  | None => "None"
  end.

(** Task.model_validate(task_data): the fields of the schema are copied;
    created_at and updated_at come each from its own default factory
    (datetime.utcnow), the remaining fields from their defaults. *)
Definition Task_model_validate (task_data : TaskCreate.t) : M Task.t :=
  created_at <- utcnow ;;
  updated_at <- utcnow ;;
  ret (Task.mk None
               (Some (TaskCreate.title task_data))
               (TaskCreate.description task_data)
               (Some (TaskCreate.status task_data))
               (Some (TaskCreate.priority task_data))
               None
               (TaskCreate.external_id task_data)
               (TaskCreate.user_id task_data)
               created_at updated_at None).

(** TaskResponse(id=t.id, title=t.title, ..., completed_at=t.completed_at) *)
Definition to_response (t : Task.t) : M TaskResponse.t :=
  lift (TaskResponse.new (Task.id t) (Task.title t) (Task.description t)
                         (Task.status t) (Task.priority t)
                         (Task.external_id t) (Task.user_id t)
                         (Task.created_at t) (Task.updated_at t)
                         (Task.completed_at t)).

Definition not_found {A} (task_id : Z) : M A :=
  raise (HTTPException 404 ("Task with ID " ++ str_int task_id ++ " not found")).

(** [except HTTPException: raise] followed by [except Exception as e:],
    which logs and answers 500. *)
Definition reraise_or_500 {A} (logged detail : string) (e : exn) : M A :=
  if isinstance_HTTPException e then raise e
  else
    logger ERROR (logged ++ str_exn e) ;;;
    raise (HTTPException 500 detail).

Section Handlers.
Context (str_dict : json -> string).   (* str() of the decoded payload *)
Context (EXTERNAL_API_BASE_URL : string) (EXTERNAL_API_TIMEOUT : Z).

Definition create_task (task_data : TaskCreate.t) : M TaskResponse.t :=
  try_except
    (db_task <- Task_model_validate task_data ;;
     db_task <-
       match Task.external_id db_task with
       | Some 0 | None => ret db_task          (* [if db_task.external_id:] is false *)
       | Some external_id =>
           try_except
             (external_data <-
                ExternalApi.fetch_external_data
                  EXTERNAL_API_BASE_URL EXTERNAL_API_TIMEOUT external_id ;;
              ret (Task.set_external_api_data (Some (str_dict external_data)) db_task))
             (fun e =>
                if isinstance_ExternalAPIException e then
                  logger WARNING ("Failed to fetch external data for task "
                                  ++ str_int external_id ++ ": " ++ str_exn e) ;;;
                  ret db_task
                else raise e)
       end ;;
     db_task <- Session.add_commit_refresh db_task ;;
     logger INFO ("Created task with ID: " ++ str_opt_int (Task.id db_task)) ;;;
     to_response db_task)
    (fun e =>
       logger ERROR ("Error creating task: " ++ str_exn e) ;;;
       raise (HTTPException 500 "An error occurred while creating the task")).

End Handlers.

Definition get_task (task_id : Z) : M TaskResponse.t :=
  try_except
    (task <- Session.get task_id ;;
     match task with
     | None => not_found task_id
     | Some task =>
         logger INFO ("Retrieved task with ID: " ++ str_opt_int (Task.id task)) ;;;
         to_response task
     end)
    (reraise_or_500 ("Error retrieving task " ++ str_int task_id ++ ": ")
                    "An error occurred while retrieving the task").

(** The value [setattr] stores in an attribute declared str or
    Optional[str], int or Optional[int], datetime, Optional[datetime].
    The record is typed: a value outside the declared type of the
    attribute has no image in it, and such an assignment is modelled as
    raising. update_task assigns str or None to str attributes only. *)
Definition ill_typed {A} (field : string) : Result A :=
  Raise (TypeError ("Task." ++ field ++ " cannot hold this value")).

Definition as_str (field : string) (value : pyvalue) : Result (option string) :=
  match value with
  | PNone => Ok None
  | PStr s => Ok (Some s)
  | _ => ill_typed field
  end.

Definition as_int (field : string) (value : pyvalue) : Result (option Z) :=
  match value with
  | PNone => Ok None
  | PInt z => Ok (Some z)
  | _ => ill_typed field
  end.

Definition as_datetime (field : string) (value : pyvalue) : Result datetime :=
  match value with
  | PDatetime d => Ok d
  | _ => ill_typed field
  end.

Definition as_opt_datetime (field : string) (value : pyvalue)
  : Result (option datetime) :=
  match value with
  | PNone => Ok None
  | PDatetime d => Ok (Some d)
  | _ => ill_typed field
  end.

Definition assign {A} (r : Result A) (set : A -> Task.t -> Task.t) (db_task : Task.t)
  : Result Task.t :=
  match r with
  | Ok v => Ok (set v db_task)
  | Raise e => Raise e
  end.

(** setattr(db_task, field, value): every attribute that Task declares
    can be assigned; a name that Task does not declare is refused
    (pydantic: object has no field). *)
Definition setattr (db_task : Task.t) (field : string) (value : pyvalue)
  : Result Task.t :=
  if String.eqb field "title" then
    assign (as_str field value) Task.set_title db_task
  else if String.eqb field "description" then
    assign (as_str field value) Task.set_description db_task
  else if String.eqb field "status" then
    assign (as_str field value) Task.set_status db_task
  else if String.eqb field "priority" then
    assign (as_str field value) Task.set_priority db_task
  else if String.eqb field "user_id" then
    assign (as_str field value) Task.set_user_id db_task
  else if String.eqb field "external_api_data" then
    assign (as_str field value) Task.set_external_api_data db_task
  else if String.eqb field "id" then
    assign (as_int field value) Task.set_id db_task
  else if String.eqb field "external_id" then
    assign (as_int field value) Task.set_external_id db_task
  else if String.eqb field "created_at" then
    assign (as_datetime field value) Task.set_created_at db_task
  else if String.eqb field "updated_at" then
    assign (as_datetime field value) Task.set_updated_at db_task
  else if String.eqb field "completed_at" then
    assign (as_opt_datetime field value) Task.set_completed_at db_task
  else Raise (ValueError ("Task object has no field " ++ field)).

(** The values of a TaskUpdate are str or None. *)
Definition pyvalue_of (value : option string) : pyvalue :=
  match value with
  | Some s => PStr s
  | None => PNone
  end.

(** for field, value in update_data.items(): setattr(db_task, field, value) *)
Fixpoint setattr_items (update_data : list (string * option string))
    (db_task : Task.t) : Result Task.t :=
  match update_data with
  | [] => Ok db_task
  | (field, value) :: rest =>
      match setattr db_task field (pyvalue_of value) with
      | Ok db_task' => setattr_items rest db_task'
      | Raise e => Raise e
      end
  end.

Definition update_task (task_id : Z) (task_data : TaskUpdate.t) : M TaskResponse.t :=
  try_except
    (db_task <- Session.get task_id ;;
     match db_task with
     | None => not_found task_id
     | Some db_task =>
         let update_data := TaskUpdate.model_dump_exclude_unset task_data in
         db_task <- lift (setattr_items update_data db_task) ;;
         (* db_task.updated_at = db_task.updated_at.__class__() *)
         updated_at <- datetime_noargs ;;
         let db_task := Task.set_updated_at updated_at db_task in
         db_task <- Session.add_commit_refresh db_task ;;
         logger INFO ("Updated task with ID: " ++ str_opt_int (Task.id db_task)) ;;;
         to_response db_task
     end)
    (reraise_or_500 ("Error updating task " ++ str_int task_id ++ ": ")
                    "An error occurred while updating the task").

Definition delete_task (task_id : Z) : M unit :=
  try_except
    (db_task <- Session.get task_id ;;
     match db_task with
     | None => not_found task_id
     | Some db_task =>
         Session.delete_commit db_task ;;;
         logger INFO ("Deleted task with ID: " ++ str_int task_id)
     end)
    (reraise_or_500 ("Error deleting task " ++ str_int task_id ++ ": ")
                    "An error occurred while deleting the task").

(** [if flt: q = q.where(column == flt)]: None and the empty string are
    both false. *)
Definition where_if (flt : option string) (column : string -> Session.Clause)
    (q : Session.Select) : Session.Select :=
  match flt with
  | Some s => if String.eqb s "" then q else Session.where_ (column s) q
  | None => q
  end.

Fixpoint mapM {A B} (f : A -> M B) (l : list A) : M (list B) :=
  match l with
  | [] => ret []
  | a :: l' =>
      b <- f a ;;
      bs <- mapM f l' ;;
      ret (b :: bs)
  end.

Definition list_tasks (skip limit : Z) (status_filter priority_filter : option string)
  : M TaskListResponse.t :=
  try_except
    (let query := Session.select_Task in
     let query := where_if status_filter Session.StatusEq query in
     let query := where_if priority_filter Session.PriorityEq query in
     let total_query := Session.select_Task in
     let total_query := where_if status_filter Session.StatusEq total_query in
     let total_query := where_if priority_filter Session.PriorityEq total_query in
     all <- Session.exec_all total_query ;;
     let total := Z.of_nat (List.length all) in
     let query := Session.limit limit (Session.offset skip query) in
     tasks <- Session.exec_all query ;;
     task_responses <- mapM to_response tasks ;;
     logger INFO ("Retrieved " ++ str_nat (List.length task_responses) ++ " tasks") ;;;
     (if Z.eqb limit 0 then raise (ZeroDivisionError "integer division or modulo by zero")
      else ret (TaskListResponse.mk task_responses total (skip / limit + 1) limit)))
    (fun e =>
       logger ERROR ("Error listing tasks: " ++ str_exn e) ;;;
       raise (HTTPException 500 "An error occurred while retrieving the tasks")).

End Tasks.

(** ** utils/exception_handlers.py *)

Module ExceptionHandlers.

(** What goes back to the client: a status and a body. An error body is
    the dict the handler builds; a success body is the response model. *)
Inductive Body : Type :=
| Content (content : json)
| TaskBody (task : TaskResponse.t)
| TaskListBody (page : TaskListResponse.t)
| NoBody.

Record JSONResponse : Type := mkJSONResponse {
  status_code : Z;
  body : Body
}.

Definition log (lvl : Level) (message : string) (w : World) : World :=
  set_logs (logs w ++ [(lvl, message)])%list w.

(** JSONResponse(status_code=..., content=...) renders its content when
    it is built, with json.dumps(..., allow_nan=False), which raises
    ValueError on a NaN or an infinity. *)
Definition render (status : Z) (content : json) : Result JSONResponse :=
  if json_compliant content then Ok (mkJSONResponse status (Content content))
  else Raise (ValueError "Out of range float values are not JSON compliant").

(** exc.status_code or status.HTTP_502_BAD_GATEWAY *)
Definition status_or_502 (o : option Z) : Z :=
  match o with
  | Some 0 | None => 502
  | Some s => s
  end.

Definition external_api_exception_handler (message : string) (status : option Z)
    (w : World) : JSONResponse * World :=
  (mkJSONResponse
     (status_or_502 status)
     (Content (JDict [("detail", JStr message);
                      ("error_code", JStr "EXTERNAL_API_ERROR");
                      ("timestamp", JNull)])),
   log ERROR ("External API error: " ++ message ++ " (Status: "
              ++ Tasks.str_opt_int status ++ ")") w).

(** One dict of the list the validation handler returns. *)
Definition error_entry (error : Pydantic.ErrorDetails) : json :=
  JDict [("loc", JList (map JStr (Pydantic.loc error)));
         ("msg", JStr (Pydantic.msg error));
         ("type", JStr (Pydantic.type error));
         ("input", match Pydantic.input error with
                   | Some v => v
                   | None => JStr "N/A"
                   end)].

Section Validation.
Context (str_errors : list Pydantic.ErrorDetails -> string).  (* str(exc) *)

Definition validation_exception_handler (exc_errors : list Pydantic.ErrorDetails)
    (w : World) : Result JSONResponse * World :=
  let w := log WARNING ("Validation error: " ++ str_errors exc_errors) w in
  let errors :=
    fold_left (fun errors error => errors ++ [error_entry error])%list
              exc_errors [] in
  (render 422 (JDict [("detail", JList errors);
                      ("error_code", JStr "VALIDATION_ERROR")]),
   w).

End Validation.

Definition general_exception_handler (exc : exn) (w : World) : JSONResponse * World :=
  (mkJSONResponse
     500
     (Content (JDict [("detail", JStr "An internal server error occurred");
                      ("error_code", JStr "INTERNAL_ERROR")])),
   log ERROR ("General error: " ++ str_exn exc) w).

(** FastAPI's own handler for HTTPException: the detail, nothing else. *)
Definition http_exception_handler (status : Z) (detail : string) : JSONResponse :=
  mkJSONResponse status (Content (JDict [("detail", JStr detail)])).

End ExceptionHandlers.

(** ** main.py: the application, its routes and its exception handlers *)

Module Main.
Import ExceptionHandlers.

Inductive Request : Type :=
| POST_tasks (body : json)
| GET_task (task_id : Z)
| PUT_task (task_id : Z) (body : json)
| DELETE_task (task_id : Z)
| GET_tasks (skip limit : option string)      (* as written in the query string *)
            (status_filter priority_filter : option string).

(** The exception that leaves a route is given to the handler registered
    for its class. *)
Definition answer {A} (success : A -> JSONResponse) (r : Result A * World)
  : JSONResponse * World :=
  match r with
  | (Ok a, w) => (success a, w)
  | (Raise (HTTPException status detail), w) => (http_exception_handler status detail, w)
  | (Raise (ExternalAPIException message status), w) =>
      external_api_exception_handler message status w
  | (Raise e, w) => general_exception_handler e w
  end.

(** An exception handler that raises leaves the request to the handler
    registered for Exception. *)
Definition handled (r : Result JSONResponse * World) : JSONResponse * World :=
  match r with
  | (Ok response, w) => (response, w)
  | (Raise e, w) => general_exception_handler e w
  end.

Section App.
Context (str_dict : json -> string).
Context (str_as_int : string -> option Z).
Context (str_errors : list Pydantic.ErrorDetails -> string).
Context (EXTERNAL_API_BASE_URL : string) (EXTERNAL_API_TIMEOUT : Z).

(** An int query parameter declared Query(default, ge=..., le=...): the
    default when the query string does not name it; otherwise its text is
    read as an integer and checked against the bounds, and an error
    echoes the text. *)
Definition query_int (name : string) (default ge : Z) (le : option Z)
    (raw : option string) : list Pydantic.ErrorDetails + Z :=
  match raw with
  | None => inr default
  | Some text =>
      match str_as_int text with
      | None =>
          inl [Pydantic.mkError ["query"; name]
                 "Input should be a valid integer, unable to parse string as an integer"
                 "int_parsing" (Some (JStr text))]
      | Some z =>
          if z <? ge then
            inl [Pydantic.mkError ["query"; name]
                   ("Input should be greater than or equal to " ++ str_int ge)
                   "greater_than_equal" (Some (JStr text))]
          else
            match le with
            | Some bound =>
                if bound <? z then
                  inl [Pydantic.mkError ["query"; name]
                         ("Input should be less than or equal to " ++ str_int bound)
                         "less_than_equal" (Some (JStr text))]
                else inr z
            | None => inr z
            end
      end
  end.

Definition app (request : Request) (w : World) : JSONResponse * World :=
  match request with
  | POST_tasks body =>
      match TaskCreate.validate str_as_int body with
      | inl errors => handled (validation_exception_handler str_errors errors w)
      | inr task_data =>
          answer (fun task => mkJSONResponse 201 (TaskBody task))
                 (Tasks.create_task str_dict EXTERNAL_API_BASE_URL
                                    EXTERNAL_API_TIMEOUT task_data w)
      end
  | GET_task task_id =>
      answer (fun task => mkJSONResponse 200 (TaskBody task))
             (Tasks.get_task task_id w)
  | PUT_task task_id body =>
      match TaskUpdate.validate body with
      | inl errors => handled (validation_exception_handler str_errors errors w)
      | inr task_data =>
          answer (fun task => mkJSONResponse 200 (TaskBody task))
                 (Tasks.update_task task_id task_data w)
      end
  | DELETE_task task_id =>
      answer (fun _ => mkJSONResponse 204 NoBody)
             (Tasks.delete_task task_id w)
  | GET_tasks skip limit status_filter priority_filter =>
      (* skip: int = Query(0, ge=0); limit: int = Query(10, ge=1, le=100) *)
      let skip := query_int "skip" 0 0 None skip in
      let limit := query_int "limit" 10 1 (Some 100) limit in
      match skip, limit with
      | inr skip, inr limit =>
          answer (fun page => mkJSONResponse 200 (TaskListBody page))
                 (Tasks.list_tasks skip limit status_filter priority_filter w)
      | _, _ =>
          handled (validation_exception_handler str_errors
                     (Pydantic.errors_of skip ++ Pydantic.errors_of limit)%list w)
      end
  end.

(** A sequence of requests served one after the other. *)
Fixpoint serve (requests : list Request) (w : World) : list JSONResponse * World :=
  match requests with
  | [] => ([], w)
  | request :: rest =>
      let (response, w') := app request w in
      let (responses, w'') := serve rest w' in
      (response :: responses, w'')
  end.

End App.

End Main.

(** ** The specification's wording, for comparison with the code *)

Module Spec.

(** The field constraints of createTask as the specification lists them:
    title required, 1-255 characters; description at most 1000; status at
    most 50; priority at most 20; user_id at most 100; external_id an
    optional integer. *)
Inductive Rule : Type :=
| Required
| MinLength
| MaxLength
| IsString
| IsInteger.

Definition string_rule (min_length max_length : Z) (v : json) : option Rule :=
  match v with
  | JStr s =>
      if len s <? min_length then Some MinLength
      else if max_length <? len s then Some MaxLength
      else None
  | _ => Some IsString
  end.

Definition nullable (rule : json -> option Rule) (v : json) : option Rule :=
  match v with
  | JNull => None
  | _ => rule v
  end.

Section Violated.
Context (str_as_int : string -> option Z).

(** An integer: a JSON integer or boolean, a numeral in a string, or a
    float that is a whole number of 64 bits. *)
Definition integer_rule (v : json) : option Rule :=
  match v with
  | JInt _ | JBool _ => None
  | JStr s => match str_as_int s with Some _ => None | None => Some IsInteger end
  | JFloat (FFinite m e) =>
      match Pydantic.float_integral m e with
      | Some z => if (- 2 ^ 63 <? z) && (z <? 2 ^ 63) then None else Some IsInteger
      | None => Some IsInteger
      end
  | _ => Some IsInteger
  end.

(** The rule that the value given for [field] in a create body breaks. *)
Definition violated (items : list (string * json)) (field : string) : option Rule :=
  match dict_get field items with
  | None => if String.eqb field "title" then Some Required else None
  | Some v =>
      if String.eqb field "title" then string_rule 1 255 v
      else if String.eqb field "description" then nullable (string_rule 0 1000) v
      else if String.eqb field "status" then string_rule 0 50 v
      else if String.eqb field "priority" then string_rule 0 20 v
      else if String.eqb field "user_id" then nullable (string_rule 0 100) v
      else if String.eqb field "external_id" then nullable integer_rule v
      else None
  end.
End Violated.

(** The name under which a broken rule is reported. *)
Definition reported_as (r : Rule) (type : string) : Prop :=
  match r with
  | Required => type = "missing"
  | MinLength => type = "string_too_short"
  | MaxLength => type = "string_too_long"
  | IsString => type = "string_type"
  | IsInteger =>
      In type ["int_type"; "int_parsing"; "int_from_float"; "finite_number";
               "int_parsing_size"]
  end.

(** listTasks: a filter that is provided must equal the field; both
    filters are combined with AND. *)
Definition matches (status_filter priority_filter : option string) (t : Task.t) : bool :=
  match status_filter with
  | Some s => Session.opt_string_eqb (Task.status t) s
  | None => true
  end
  &&
  match priority_filter with
  | Some s => Session.opt_string_eqb (Task.priority t) s
  | None => true
  end.

(** The records a page holds: the matching ones, after skipping [skip]
    and taking at most [limit]. *)
Definition page_of (skip limit : Z) (status_filter priority_filter : option string)
    (table : list Task.t) : list Task.t :=
  firstn (Z.to_nat limit)
         (skipn (Z.to_nat skip) (filter (matches status_filter priority_filter) table)).


(** A response shows a stored record: the same values, field by field. *)
Definition shows (r : TaskResponse.t) (t : Task.t) : Prop :=
  Task.id t = Some (TaskResponse.id r)
  /\ Task.title t = Some (TaskResponse.title r)
  /\ Task.description t = TaskResponse.description r
  /\ Task.status t = Some (TaskResponse.status r)
  /\ Task.priority t = Some (TaskResponse.priority r)
  /\ Task.external_id t = TaskResponse.external_id r
  /\ Task.user_id t = TaskResponse.user_id r
  /\ Task.created_at t = TaskResponse.created_at r
  /\ Task.updated_at t = TaskResponse.updated_at r
  /\ Task.completed_at t = TaskResponse.completed_at r.

(** The address fetchExternalData requests: base URL + /posts/{externalId}. *)
Definition url_of (base : string) (external_id : Z) : string :=
  base ++ "/posts/" ++ str_int external_id.

(** The record createTask stores for an input, given the assigned id, the
    two timestamps and the enrichment snapshot. *)
Definition stored (task_data : TaskCreate.t) (id : Z)
    (created_at updated_at : datetime) (data : option string) : Task.t :=
  Task.mk (Some id) (Some (TaskCreate.title task_data))
          (TaskCreate.description task_data)
          (Some (TaskCreate.status task_data))
          (Some (TaskCreate.priority task_data))
          data (TaskCreate.external_id task_data) (TaskCreate.user_id task_data)
          created_at updated_at None.

(** The task createTask returns for it. *)
Definition returned (task_data : TaskCreate.t) (id : Z)
    (created_at updated_at : datetime) : TaskResponse.t :=
  TaskResponse.mk id (TaskCreate.title task_data)
          (TaskCreate.description task_data)
          (TaskCreate.status task_data)
          (TaskCreate.priority task_data)
          (TaskCreate.external_id task_data) (TaskCreate.user_id task_data)
          created_at updated_at None.

(** The serialized payload on success, nothing on failure. *)
Definition snapshot (str_dict : json -> string) (r : Result json) : option string :=
  match r with
  | Ok d => Some (str_dict d)
  | Raise _ => None
  end.

(** An operation that leaves the table and its id sequence as they were. *)
Definition same_table (w w' : World) : Prop :=
  rows w' = rows w /\ next_id w' = next_id w.

(** A filter counts as provided when it is a non-empty string. *)
Definition provided (flt : option string) : option string :=
  match flt with
  | Some s => if String.eqb s "" then None else Some s
  | None => None
  end.

(** The fields of a create payload, in the order of the schema. *)
Definition create_fields : list string :=
  ["title"; "description"; "status"; "priority"; "user_id"; "external_id"].

(** What a broken rule is reported with: the value given for the field,
    or the whole body when the field is missing. *)
Definition offending (items : list (string * json)) (field : string) : json :=
  match dict_get field items with
  | Some v => v
  | None => JDict items
  end.

(** [entry] reports that [field] breaks [rule]: its location, a message,
    the name of the rule and the offending input. *)
Definition reports (items : list (string * json)) (rule : Rule) (field : string)
    (entry : json) : Prop :=
  exists type msg,
    reported_as rule type
    /\ entry = JDict [("loc", JList [JStr "body"; JStr field]);
                      ("msg", JStr msg);
                      ("type", JStr type);
                      ("input", offending items field)].

(** What the errors of one field of a create payload are to be: none
    when the field breaks no rule; otherwise one, located at the field,
    naming the broken rule and carrying the offending input. *)
Definition field_report (str_as_int : string -> option Z)
    (items : list (string * json)) (field : string)
    (errors : list Pydantic.ErrorDetails) : Prop :=
  match violated str_as_int items field with
  | Some rule =>
      exists type msg,
        reported_as rule type
        /\ errors = [Pydantic.mkError ["body"; field] msg type
                                      (Some (offending items field))]
  | None => errors = []
  end.

(** The fields of a create payload that break their rule, in the order
    of the schema. *)
Definition violating (str_as_int : string -> option Z)
    (items : list (string * json)) : list string :=
  filter (fun field =>
            match violated str_as_int items field with
            | Some _ => true
            | None => false
            end)
         create_fields.

(** A payload without the bindings of one key. *)
Definition without (key : string) (items : list (string * json))
  : list (string * json) :=
  filter (fun kv => negb (String.eqb (fst kv) key)) items.

(** The fields an update payload can name, and what the JSON value given
    for one of them assigns: null assigns None, a string assigns it. *)
Definition update_fields : list string :=
  ["title"; "description"; "status"; "priority"; "user_id"].

Definition payload_value (v : json) : option (option string) :=
  match v with
  | JNull => Some None
  | JStr s => Some (Some s)
  | _ => None
  end.

(** A table in good order: no two rows share an id, every row is a valid
    row, and every id is below the next value of the sequence. *)
Definition table_ok (w : World) : Prop :=
  NoDup (map Task.id (rows w))
  /\ Forall (fun t => Task.valid t = true) (rows w)
  /\ forall t i, In t (rows w) -> Task.id t = Some i -> i < next_id w.

(** A partial update merged into a stored value: a field that was set
    takes the payload's value, one that was not keeps the old one. *)
Definition merged (v : option (option string)) (old : option string) : option string :=
  match v with
  | Some value => value
  | None => old
  end.

(** The ids handed out by the creations among a run of responses. *)
Fixpoint created_ids (responses : list ExceptionHandlers.JSONResponse) : list Z :=
  match responses with
  | [] => []
  | r :: rest =>
      match ExceptionHandlers.status_code r, ExceptionHandlers.body r with
      | 201, ExceptionHandlers.TaskBody task => TaskResponse.id task :: created_ids rest
      | _, _ => created_ids rest
      end
  end.

End Spec.

(** ** Concrete worlds and inputs *)

Module Scenario.

Definition str_dict (v : json) : string := "{}".
Definition str_as_int (s : string) : option Z := None.
Definition str_errors (l : list Pydantic.ErrorDetails) : string := "validation errors".
Definition base_url : string := "https://jsonplaceholder.typicode.com".
Definition timeout : Z := 10.

(** A remote service that knows no resource. *)
Definition upstream_404 (url : string) : HttpOutcome :=
  Responded (mkHttpResponse 404 "{}" (Some (JDict [])) "").

(** A remote service that never answers in time. *)
Definition upstream_stalled (url : string) : HttpOutcome :=
  Failed (TimeoutException "Request timed out").

(** A clock that advances by one microsecond at each reading. *)
Definition running_clock (n : nat) : datetime := 1700000000000000 + Z.of_nat n.

Definition empty_world : World :=
  mkWorld [] 1 running_clock 0 upstream_404 [] [].

Definition original_task : Task.t :=
  Task.mk (Some 1) (Some "Original Task") (Some "Original Description")
          (Some "pending") (Some "low") None None (Some "user789")
          1700000000000000 1700000000000001 None.

Definition one_task_world : World :=
  mkWorld [original_task] 2 running_clock 2 upstream_404 [] [].

Definition new_task (external_id : option Z) : TaskCreate.t :=
  TaskCreate.mk "Task with External Data" (Some "This task will fetch external data")
                "pending" "medium" (Some "user123") external_id.

Definition status_completed : TaskUpdate.t :=
  TaskUpdate.mk None None (Some (Some "completed")) None None.

(** A remote service that answers every request with one post. *)
Definition a_post : json :=
  JDict [("id", JInt 1); ("title", JStr "Test Post");
         ("body", JStr "This is a test post"); ("userId", JInt 1)].

Definition upstream_ok (url : string) : HttpOutcome :=
  Responded (mkHttpResponse 200 "{...}" (Some a_post) "").

(** A remote service that cannot be reached. *)
Definition upstream_down (url : string) : HttpOutcome :=
  Failed (RequestError "All connection attempts failed").

Definition world_with (remote : string -> HttpOutcome) : World :=
  mkWorld [] 1 running_clock 0 remote [] [].




(** A table holding one task that was marked completed (by a writer
    other than this service, which never sets completed_at). *)
Definition completed_task : Task.t :=
  Task.mk (Some 1) (Some "Done Task") None (Some "completed") (Some "low")
          None None None
          1700000000000000 1700000000000001 (Some 1700000000000005).

Definition completed_world : World :=
  mkWorld [completed_task] 2 running_clock 2 upstream_404 [] [].


Definition create_task := Tasks.create_task str_dict base_url timeout.
Definition fetch_external_data := ExternalApi.fetch_external_data base_url timeout.
Definition app := Main.app str_dict str_as_int str_errors base_url timeout.
Definition serve := Main.serve str_dict str_as_int str_errors base_url timeout.

End Scenario.

(** * Properties *)

(** ** Running the monad *)

Ltac run :=
  cbv beta iota zeta delta
    [bind ret raise try_except lift logger utcnow datetime_noargs
     Tasks.not_found Tasks.reraise_or_500
     Session.get Session.delete_commit
     isinstance_HTTPException isinstance_ExternalAPIException].

Lemma find_filter_out {A} (f : A -> bool) (l : list A) :
  find f (filter (fun x => negb (f x)) l) = None.
Proof.
  induction l as [|a l IH]; simpl; [reflexivity|].
  destruct (f a) eqn:E; simpl; [exact IH|].
  rewrite E. exact IH.
Qed.

Lemma find_has_id task_id l t :
  find (Session.has_id task_id) l = Some t -> Task.id t = Some task_id.
Proof.
  intros H. apply find_some in H. destruct H as [_ H].
  unfold Session.has_id in H. destruct (Task.id t); [|discriminate].
  apply Z.eqb_eq in H. now subst.
Qed.

Lemma delete_task_removes (w : World) (task_id : Z) :
  fst (Tasks.delete_task task_id w) = Ok tt ->
  find (Session.has_id task_id) (rows (snd (Tasks.delete_task task_id w))) = None
  /\ fst (Tasks.get_task task_id (snd (Tasks.delete_task task_id w)))
     = Raise (HTTPException 404 ("Task with ID " ++ str_int task_id ++ " not found")).
Proof.
  unfold Tasks.delete_task, Tasks.get_task, Tasks.to_response. run.
  destruct (find (Session.has_id task_id) (rows w)) as [t|] eqn:F.
  - rewrite (find_has_id _ _ _ F). cbn [fst snd rows set_rows set_logs].
    intros _. rewrite find_filter_out. split; reflexivity.
  - cbn. discriminate.
Qed.

Section Enrichment.
Context (base : string) (timeout : Z).

Lemma fetch_world n w :
  snd (ExternalApi.fetch_external_data base timeout n w)
  = set_sent (sent w ++ [Spec.url_of base n])%list w.
Proof.
  unfold ExternalApi.fetch_external_data, ExternalApi.client_get,
    ExternalApi.response_json, ExternalApi.except_clauses, Spec.url_of.
  run.
  destruct (upstream w _) as [r|e].
  - destruct (Z.eqb (resp_status_code r) 404); [reflexivity|].
    destruct (400 <=? resp_status_code r); [reflexivity|].
    destruct (resp_json r); reflexivity.
  - destruct e; reflexivity.
Qed.

Lemma fetch_raises n w e :
  fst (ExternalApi.fetch_external_data base timeout n w) = Raise e ->
  isinstance_ExternalAPIException e = true.
Proof.
  unfold ExternalApi.fetch_external_data, ExternalApi.client_get,
    ExternalApi.response_json, ExternalApi.except_clauses.
  run.
  destruct (upstream w _) as [r|e'].
  - destruct (Z.eqb (resp_status_code r) 404); cbn.
    + intros H; inversion H; reflexivity.
    + destruct (400 <=? resp_status_code r); cbn.
      * intros H; inversion H; reflexivity.
      * destruct (resp_json r); cbn; intros H; inversion H; reflexivity.
  - destruct e'; cbn; intros H; inversion H; reflexivity.
Qed.

Lemma fetch_upstream n w w' :
  upstream w' = upstream w ->
  fst (ExternalApi.fetch_external_data base timeout n w')
  = fst (ExternalApi.fetch_external_data base timeout n w).
Proof.
  intros U.
  unfold ExternalApi.fetch_external_data, ExternalApi.client_get,
    ExternalApi.response_json, ExternalApi.except_clauses.
  run. rewrite U.
  destruct (upstream w _) as [r|e'].
  - destruct (Z.eqb (resp_status_code r) 404); [reflexivity|].
    destruct (400 <=? resp_status_code r); [reflexivity|].
    destruct (resp_json r); reflexivity.
  - destruct e'; reflexivity.
Qed.
End Enrichment.


(** ** Creation *)

Lemma valid_response task_data :
  TaskCreate.valid task_data = true ->
  within 1 255 (TaskCreate.title task_data)
  && opt_within 1000 (TaskCreate.description task_data)
  && within 0 50 (TaskCreate.status task_data)
  && within 0 20 (TaskCreate.priority task_data) = true.
Proof.
  unfold TaskCreate.valid. intros H.
  apply andb_true_iff in H. exact (proj1 H).
Qed.

#[local] Arguments String.append : simpl never.
#[local] Arguments str_int : simpl never.
#[local] Arguments Session.fits_integer : simpl never.
#[local] Arguments Session.fits_bigint : simpl never.

Section Create.
Context (str_dict : json -> string) (base : string) (timeout : Z).

Ltac finish_create V F :=
  unfold Session.add_commit_refresh, Tasks.to_response, TaskResponse.new, lift; cbn;
  rewrite F; cbn; rewrite V; eexists _, _; split; [reflexivity|]; cbn; repeat split.

Ltac enrich :=
  let FW := fresh "FW" in
  let FR := fresh "FR" in
  let I := fresh "I" in
  match goal with
  | |- context [ExternalApi.fetch_external_data base timeout ?n ?W] =>
      pose proof (fetch_world base timeout n W) as FW;
      pose proof (fetch_raises base timeout n W) as FR;
      let r := fresh "r" in
      let w2 := fresh "w2" in
      destruct (ExternalApi.fetch_external_data base timeout n W) as [r w2];
      cbn [fst snd] in FW, FR; subst w2;
      let d := fresh "d" in
      let e := fresh "e" in
      destruct r as [d|e];
        [|pose proof (FR e eq_refl) as I; destruct e; try discriminate I]
  end.

(** A valid input whose external_id the INTEGER column holds. *)
Lemma create_task_runs task_data w :
  TaskCreate.valid task_data = true ->
  Session.fits_integer (TaskCreate.external_id task_data) = true ->
  exists data w',
    Tasks.create_task str_dict base timeout task_data w
    = (Ok (Spec.returned task_data (next_id w) (clock w (ticks w)) (clock w (S (ticks w)))), w')
    /\ rows w' = (rows w ++ [Spec.stored task_data (next_id w) (clock w (ticks w))
                                    (clock w (S (ticks w))) data])%list
    /\ next_id w' = next_id w + 1
    /\ ticks w' = S (S (ticks w))
    /\ clock w' = clock w
    /\ upstream w' = upstream w
    /\ match TaskCreate.external_id task_data with
       | Some 0 | None => data = None /\ sent w' = sent w
       | Some n =>
           data = Spec.snapshot str_dict (fst (ExternalApi.fetch_external_data base timeout n w))
           /\ sent w' = (sent w ++ [Spec.url_of base n])%list
       end.
Proof.
  intros V F. apply valid_response in V.
  destruct task_data as [ti de st pr us ext]. cbn in V.
  cbn [TaskCreate.external_id] in F.
  unfold Tasks.create_task, Tasks.Task_model_validate, Spec.returned, Spec.stored. run.
  cbn [Task.external_id TaskCreate.external_id TaskCreate.title
       TaskCreate.description TaskCreate.status TaskCreate.priority
       TaskCreate.user_id].
  destruct ext as [[|p|p]|]; [finish_create V F| | |finish_create V F].
  all: match goal with
       | |- context [ExternalApi.fetch_external_data base timeout ?n ?W] =>
           rewrite <- (fetch_upstream base timeout n w W eq_refl)
       end.
  all: enrich.
  all: finish_create V F.
Qed.

(** An input whose external_id the INTEGER column does not hold: the
    insert fails, the route answers 500 and no row is written. *)
Lemma create_task_out_of_range task_data w :
  Session.fits_integer (TaskCreate.external_id task_data) = false ->
  fst (Tasks.create_task str_dict base timeout task_data w)
  = Raise (HTTPException 500 "An error occurred while creating the task")
  /\ Spec.same_table w (snd (Tasks.create_task str_dict base timeout task_data w)).
Proof.
  intros F.
  destruct task_data as [ti de st pr us ext].
  cbn [TaskCreate.external_id] in F.
  unfold Tasks.create_task, Tasks.Task_model_validate. run.
  cbn [Task.external_id TaskCreate.external_id TaskCreate.title
       TaskCreate.description TaskCreate.status TaskCreate.priority
       TaskCreate.user_id].
  destruct ext as [[|p|p]|]; try discriminate F.
  all: enrich.
  all: unfold Session.add_commit_refresh; cbn; rewrite F; cbn;
       split; [reflexivity|split; reflexivity].
Qed.

(** Whatever the input, create_task returns a task or raises the 500 of
    its except clause. *)
Lemma create_task_outcome task_data w :
  TaskCreate.valid task_data = true ->
  (exists task w', Tasks.create_task str_dict base timeout task_data w = (Ok task, w'))
  \/ (fst (Tasks.create_task str_dict base timeout task_data w)
      = Raise (HTTPException 500 "An error occurred while creating the task")
      /\ Spec.same_table w (snd (Tasks.create_task str_dict base timeout task_data w))).
Proof.
  intros V.
  destruct (Session.fits_integer (TaskCreate.external_id task_data)) eqn:F.
  - left. destruct (create_task_runs task_data w V F) as (data & w' & E & _).
    eexists _, _. exact E.
  - right. exact (create_task_out_of_range task_data w F).
Qed.
End Create.

(** ** What each handler leaves untouched *)

Lemma get_task_frame task_id w : Spec.same_table w (snd (Tasks.get_task task_id w)).
Proof.
  unfold Tasks.get_task, Tasks.to_response, TaskResponse.new. run.
  destruct (find _ _) as [t|]; cbn; [|split; reflexivity].
  destruct (Task.id t), (Task.title t), (Task.status t), (Task.priority t);
    cbn; try (split; reflexivity).
  destruct (_ && _); cbn; split; reflexivity.
Qed.

(** The assignment loop on the items of a dump: it succeeds, and the
    attributes outside the update schema keep their values. *)
Lemma setattr_items_dump task_data t :
  exists t',
    Tasks.setattr_items (TaskUpdate.model_dump_exclude_unset task_data) t = Ok t'
    /\ Task.completed_at t' = Task.completed_at t
    /\ Task.id t' = Task.id t
    /\ Task.created_at t' = Task.created_at t
    /\ Task.external_id t' = Task.external_id t.
Proof.
  destruct task_data as [[[a|]|] [[b|]|] [[c|]|] [[d|]|] [[e|]|]]; cbn;
    eexists; (split; [reflexivity|]); repeat split.
Qed.

Lemma update_task_existing task_id task_data w t :
  find (Session.has_id task_id) (rows w) = Some t ->
  Tasks.update_task task_id task_data w
  = (Raise (HTTPException 500 "An error occurred while updating the task"),
     ExceptionHandlers.log ERROR
       (("Error updating task " ++ str_int task_id ++ ": ")
        ++ "function missing required argument 'year' (pos 1)") w).
Proof.
  intros F. unfold Tasks.update_task. run. rewrite F.
  destruct (setattr_items_dump task_data t) as (t' & -> & _). reflexivity.
Qed.

Lemma update_task_missing task_id task_data w :
  find (Session.has_id task_id) (rows w) = None ->
  Tasks.update_task task_id task_data w
  = (Raise (HTTPException 404 ("Task with ID " ++ str_int task_id ++ " not found")), w).
Proof.
  intros F. unfold Tasks.update_task. run. rewrite F. reflexivity.
Qed.

Lemma update_task_frame task_id task_data w :
  Spec.same_table w (snd (Tasks.update_task task_id task_data w)).
Proof.
  destruct (find (Session.has_id task_id) (rows w)) as [t|] eqn:F.
  - rewrite (update_task_existing _ _ _ _ F). split; reflexivity.
  - rewrite (update_task_missing _ _ _ F). split; reflexivity.
Qed.

Lemma delete_task_frame task_id w :
  next_id (snd (Tasks.delete_task task_id w)) = next_id w
  /\ incl (rows (snd (Tasks.delete_task task_id w))) (rows w).
Proof.
  unfold Tasks.delete_task. run.
  destruct (find _ _) as [t|]; cbn; [|split; [reflexivity|apply incl_refl]].
  destruct (Task.id t); cbn; (split; [reflexivity|]); [|apply incl_refl].
  intros x Hx. apply filter_In in Hx. exact (proj1 Hx).
Qed.

Lemma mapM_to_response_world l : forall w,
  snd (Tasks.mapM Tasks.to_response l w) = w.
Proof.
  induction l as [|t l IH]; intros w; [reflexivity|].
  cbn [Tasks.mapM]. unfold bind at 1.
  unfold Tasks.to_response at 1, lift.
  destruct (TaskResponse.new _ _ _ _ _ _ _ _ _ _); [|reflexivity].
  unfold bind. specialize (IH w).
  destruct (Tasks.mapM Tasks.to_response l w) as [[bs|e] w']; cbn in *; exact IH.
Qed.

Lemma wheres_matches sf pf t :
  forallb (fun c => Session.holds c t)
          (Session.wheres (Tasks.where_if pf Session.PriorityEq
                             (Tasks.where_if sf Session.StatusEq Session.select_Task)))
  = Spec.matches (Spec.provided sf) (Spec.provided pf) t.
Proof.
  unfold Tasks.where_if, Spec.provided, Spec.matches.
  destruct sf as [s|], pf as [p|];
    repeat match goal with
           | |- context [String.eqb ?x ""] => destruct (String.eqb x "")
           end;
    cbn; rewrite ?andb_true_r; reflexivity.
Qed.

Lemma exec_all_total sf pf w :
  Session.exec_all (Tasks.where_if pf Session.PriorityEq
                      (Tasks.where_if sf Session.StatusEq Session.select_Task)) w
  = (Ok (filter (Spec.matches (Spec.provided sf) (Spec.provided pf)) (rows w)), w).
Proof.
  unfold Session.exec_all.
  rewrite (filter_ext _ _ (wheres_matches sf pf)).
  destruct sf as [s|], pf as [p|]; unfold Tasks.where_if;
    repeat match goal with
           | |- context [String.eqb ?x ""] => destruct (String.eqb x "")
           end; reflexivity.
Qed.

Lemma exec_all_page skip limit sf pf w :
  Session.exec_all
    (Session.limit limit
       (Session.offset skip
          (Tasks.where_if pf Session.PriorityEq
             (Tasks.where_if sf Session.StatusEq Session.select_Task)))) w
  = if Session.fits_bigint (Some skip) && Session.fits_bigint (Some limit)
    then (Ok (Spec.page_of skip limit (Spec.provided sf) (Spec.provided pf) (rows w)), w)
    else (Raise (DataError "OFFSET and LIMIT must be non-negative bigint values"), w).
Proof.
  unfold Session.exec_all, Spec.page_of.
  cbn [Session.wheres Session.q_offset Session.q_limit Session.limit Session.offset].
  destruct (Session.fits_bigint (Some skip) && Session.fits_bigint (Some limit));
    [|reflexivity].
  cbn [negb]. rewrite (filter_ext _ _ (wheres_matches sf pf)). reflexivity.
Qed.



Lemma list_tasks_frame skip limit sf pf w :
  Spec.same_table w (snd (Tasks.list_tasks skip limit sf pf w)).
Proof.
  unfold Tasks.list_tasks. run. rewrite exec_all_total, exec_all_page.
  destruct (_ && _); [|split; reflexivity].
  match goal with
  | |- context [Tasks.mapM ?f ?l ?W] =>
      pose proof (mapM_to_response_world l W) as Hm;
      destruct (Tasks.mapM f l W) as [[rs|e] w1]
  end; cbn in Hm; subst w1; cbn; [|split; reflexivity].
  destruct (Z.eqb limit 0); cbn; split; reflexivity.
Qed.

Import ExceptionHandlers.

(** ** The application, request by request *)

Lemma answer_frame {A} (success : A -> JSONResponse) r :
  Spec.same_table (snd r) (snd (Main.answer success r)).
Proof.
  destruct r as [[a|e] w]; [split; reflexivity|].
  destruct e; split; reflexivity.
Qed.

Lemma answer_raise {A} (success : A -> JSONResponse) e w :
  exists content, body (fst (Main.answer success (Raise e, w))) = Content content.
Proof. destruct e; eexists; reflexivity. Qed.

Lemma str_field_within mn mx v s :
  Pydantic.str_field mn mx v = inr s -> within mn mx s = true.
Proof.
  unfold Pydantic.str_field, within. destruct v; try discriminate.
  destruct (len s0 <? mn) eqn:A; [discriminate|].
  destruct (mx <? len s0) eqn:B; [discriminate|].
  intros H; inversion H; subst.
  apply Z.ltb_ge in A, B. apply andb_true_iff; split; now apply Z.leb_le.
Qed.

Lemma optional_str_field_within mx v o :
  Pydantic.optional (Pydantic.str_field 0 mx) v = inr o -> opt_within mx o = true.
Proof.
  unfold Pydantic.optional.
  destruct v; try (intros H; inversion H; reflexivity);
    destruct (Pydantic.str_field 0 mx _) eqn:E; try discriminate;
    intros H; inversion H; subst; cbn; eapply str_field_within; exact E.
Qed.

Lemma field_inr {A} name items (validator : json -> Pydantic.FieldResult A) default a :
  Pydantic.field name items validator default = inr a ->
  (exists v, dict_get name items = Some v /\ validator v = inr a)
  \/ (dict_get name items = None /\ default = Some a).
Proof.
  unfold Pydantic.field. destruct (dict_get name items) as [v|].
  - destruct (validator v) as [[ty m]|a'] eqn:E; [discriminate|].
    intros H; inversion H; subst. left. now exists v.
  - destruct default; [|discriminate]. intros H; inversion H; subst. now right.
Qed.

Section Validation.
Context (str_as_int : string -> option Z).

Lemma validate_valid body task_data :
  TaskCreate.validate str_as_int body = inr task_data ->
  TaskCreate.valid task_data = true.
Proof.
  destruct body; try discriminate. unfold TaskCreate.validate.
  destruct (Pydantic.field "title" _ _ _) as [?|a] eqn:Ea;
  destruct (Pydantic.field "description" _ _ _) as [?|b] eqn:Eb;
  destruct (Pydantic.field "status" _ _ _) as [?|c] eqn:Ec;
  destruct (Pydantic.field "priority" _ _ _) as [?|d] eqn:Ed;
  destruct (Pydantic.field "user_id" _ _ _) as [?|e] eqn:Ee;
  destruct (Pydantic.field "external_id" _ _ _) as [?|f] eqn:Ef;
  try discriminate.
  intros H; inversion H; subst. unfold TaskCreate.valid.
  cbn [TaskCreate.title TaskCreate.description TaskCreate.status
       TaskCreate.priority TaskCreate.user_id].
  apply field_inr in Ea, Eb, Ec, Ed, Ee.
  rewrite !andb_true_iff. repeat split.
  - destruct Ea as [(v & _ & E)|(_ & E)]; [|discriminate].
    eapply str_field_within; exact E.
  - destruct Eb as [(v & _ & E)|(_ & E)].
    + eapply optional_str_field_within; exact E.
    + inversion E; reflexivity.
  - destruct Ec as [(v & _ & E)|(_ & E)].
    + eapply str_field_within; exact E.
    + inversion E; reflexivity.
  - destruct Ed as [(v & _ & E)|(_ & E)].
    + eapply str_field_within; exact E.
    + inversion E; reflexivity.
  - destruct Ee as [(v & _ & E)|(_ & E)].
    + eapply optional_str_field_within; exact E.
    + inversion E; reflexivity.
Qed.
End Validation.

Lemma fold_append_map {A B} (f : A -> B) (l : list A) (acc : list B) :
  fold_left (fun errors error => errors ++ [f error])%list l acc
  = (acc ++ map f l)%list.
Proof.
  revert acc. induction l as [|a l IH]; intros acc; cbn.
  - now rewrite app_nil_r.
  - rewrite IH, <- app_assoc. reflexivity.
Qed.

(** The validation handler answers 422 with one entry per error, in
    order, when every entry renders; when one does not, the handler
    raises and the request is answered by the handler for Exception. *)
Lemma handled_validation str_errors errors w :
  let r := Main.handled (validation_exception_handler str_errors errors w) in
  Spec.same_table w (snd r)
  /\ if forallb json_compliant (map error_entry errors) then
       fst r = mkJSONResponse 422
                 (Content (JDict [("detail", JList (map error_entry errors));
                                  ("error_code", JStr "VALIDATION_ERROR")]))
     else
       fst r = mkJSONResponse 500
                 (Content (JDict [("detail", JStr "An internal server error occurred");
                                  ("error_code", JStr "INTERNAL_ERROR")])).
Proof.
  unfold validation_exception_handler, render, Main.handled.
  rewrite fold_append_map. cbn [List.app].
  cbn [json_compliant forallb snd]. rewrite !andb_true_r.
  destruct (forallb json_compliant (map error_entry errors));
    cbn; (split; [split; reflexivity|reflexivity]).
Qed.

Lemma handled_validation_content str_errors errors w :
  exists content,
    body (fst (Main.handled (validation_exception_handler str_errors errors w)))
    = Content content.
Proof.
  destruct (handled_validation str_errors errors w) as [_ H].
  destruct (forallb _ _); rewrite H; eexists; reflexivity.
Qed.

Lemma created_ids_cons r rest :
  Spec.created_ids (r :: rest)
  = if Z.eqb (status_code r) 201 then
      match body r with
      | TaskBody task => TaskResponse.id task :: Spec.created_ids rest
      | _ => Spec.created_ids rest
      end
    else Spec.created_ids rest.
Proof.
  cbn [Spec.created_ids].
  destruct (status_code r) as [|p|p]; try reflexivity.
  do 8 (try (destruct p as [p|p|]; try reflexivity;
             try (destruct (body r); reflexivity))).
Qed.

Section App.
Context (str_dict : json -> string) (str_as_int : string -> option Z).
Context (str_errors : list Pydantic.ErrorDetails -> string).
Context (base : string) (timeout : Z).

Local Notation "'APP'" := (Main.app str_dict str_as_int str_errors base timeout).
Local Notation "'SERVE'" := (Main.serve str_dict str_as_int str_errors base timeout).

(** What one request can do to the table. *)
Lemma app_step request w :
  let resp := fst (APP request w) in
  let w' := snd (APP request w) in
  next_id w <= next_id w'
  /\ (forall t, status_code resp = 201 -> body resp = TaskBody t ->
                TaskResponse.id t = next_id w /\ next_id w' = next_id w + 1)
  /\ (forall t', In t' (rows w') ->
                 In t' (rows w)
                 \/ (Task.id t' = Some (next_id w) /\ next_id w' = next_id w + 1
                     /\ Task.completed_at t' = None /\ Task.valid t' = true)).
Proof.
  assert (quiet : forall A (success : A -> JSONResponse) (r : Result A * World),
             (forall a, status_code (success a) <> 201) ->
             Spec.same_table w (snd r) ->
             let resp := fst (Main.answer success r) in
             let w' := snd (Main.answer success r) in
             next_id w <= next_id w'
             /\ (forall t, status_code resp = 201 -> body resp = TaskBody t ->
                           TaskResponse.id t = next_id w /\ next_id w' = next_id w + 1)
             /\ (forall t', In t' (rows w') ->
                     In t' (rows w)
                     \/ (Task.id t' = Some (next_id w) /\ next_id w' = next_id w + 1
                         /\ Task.completed_at t' = None /\ Task.valid t' = true))).
  { intros A success r S [R N].
    destruct (answer_frame success r) as [R' N']. cbn zeta.
    rewrite R', N', R, N. split; [lia|split].
    - intros t H1 H2. exfalso. destruct r as [[a|e] w1].
      + exact (S a H1).
      + destruct (answer_raise success e w1) as [c Hc]. congruence.
    - intros t' H. now left. }
  assert (rejected : forall errors,
             let r := Main.handled (validation_exception_handler str_errors errors w) in
             next_id w <= next_id (snd r)
             /\ (forall t, status_code (fst r) = 201 -> body (fst r) = TaskBody t ->
                           TaskResponse.id t = next_id w
                           /\ next_id (snd r) = next_id w + 1)
             /\ (forall t', In t' (rows (snd r)) ->
                     In t' (rows w)
                     \/ (Task.id t' = Some (next_id w) /\ next_id (snd r) = next_id w + 1
                         /\ Task.completed_at t' = None /\ Task.valid t' = true))).
  { intros errors. cbv zeta.
    destruct (handled_validation str_errors errors w) as [[R N] _].
    destruct (handled_validation_content str_errors errors w) as [c Hc].
    rewrite R, N. split; [lia|split].
    - intros t _ H. congruence.
    - intros t' H; now left. }
  destruct request as [body0|task_id|task_id body0|task_id|skip limit sf pf]; cbn [Main.app].
  - destruct (TaskCreate.validate str_as_int body0) as [errors|task_data] eqn:V;
      [apply rejected|].
    apply validate_valid in V.
    destruct (Session.fits_integer (TaskCreate.external_id task_data)) eqn:F.
    + destruct (create_task_runs str_dict base timeout task_data w V F)
        as (data & w' & -> & R & N & _).
      cbn. rewrite R, N. split; [lia|split].
      * intros t _ H. inversion H. split; reflexivity.
      * intros t' H. apply in_app_or in H. destruct H as [H|[<-|[]]]; [now left|].
        right. repeat split. exact V.
    + destruct (create_task_out_of_range str_dict base timeout task_data w F)
        as (E & R & N).
      destruct (Tasks.create_task str_dict base timeout task_data w) as [r w1].
      cbn [fst snd] in E, R, N. subst r. cbn. rewrite R, N.
      split; [lia|split]; [intros t H; discriminate H|intros t' H; now left].
  - apply quiet; [discriminate|apply get_task_frame].
  - destruct (TaskUpdate.validate body0) as [errors|task_data]; [apply rejected|].
    apply quiet; [discriminate|apply update_task_frame].
  - destruct (delete_task_frame task_id w) as [N R].
    destruct (answer_frame (fun _ : unit => mkJSONResponse 204 NoBody)
                (Tasks.delete_task task_id w)) as [R' N'].
    cbn zeta. rewrite R', N', N. split; [lia|split].
    + intros t H1 H2. exfalso.
      destruct (Tasks.delete_task task_id w) as [[a|e] w1]; [discriminate H1|].
      destruct (answer_raise (fun _ : unit => mkJSONResponse 204 NoBody) e w1) as [c Hc].
      congruence.
    + intros t' H. left. now apply R.
  - cbv zeta.
    destruct (Main.query_int str_as_int "skip" 0 0 None skip) as [e1|skip'];
      [apply rejected|].
    destruct (Main.query_int str_as_int "limit" 10 1 (Some 100) limit) as [e2|limit'];
      [apply rejected|].
    apply quiet; [discriminate|apply list_tasks_frame].
Qed.

Lemma serve_step requests : forall w,
  let responses := fst (SERVE requests w) in
  let w' := snd (SERVE requests w) in
  next_id w <= next_id w'
  /\ (forall i, In i (Spec.created_ids responses) -> next_id w <= i < next_id w')
  /\ (forall t', In t' (rows w') ->
         In t' (rows w)
         \/ ((exists i, Task.id t' = Some i /\ next_id w <= i < next_id w')
             /\ Task.completed_at t' = None /\ Task.valid t' = true)).
Proof.
  induction requests as [|request rest IH]; intros w.
  - cbn. split; [lia|split]; [intros i []|intros t' H; now left].
  - cbn [Main.serve]. pose proof (app_step request w) as (N1 & C1 & R1).
    destruct (APP request w) as [response w1]. cbn [fst snd] in N1, C1, R1.
    pose proof (IH w1) as (N2 & C2 & R2).
    destruct (SERVE rest w1) as [responses w2]. cbn [fst snd] in *.
    split; [lia|split].
    + intros i H. rewrite created_ids_cons in H.
      assert (In i (Spec.created_ids responses) -> next_id w <= i < next_id w2)
        by (intros H'; apply C2 in H'; lia).
      destruct (Z.eqb (status_code response) 201) eqn:S; auto.
      apply Z.eqb_eq in S.
      destruct (body response) as [c|task|page|] eqn:B; auto.
      destruct (C1 task S eq_refl) as [I N].
      destruct H as [<-|H]; [lia|auto].
    + intros t' H. destruct (R2 t' H) as [H'|[(i & I & B) K]].
      * destruct (R1 t' H') as [H''|(I & N & K)]; [now left|].
        right. split; [exists (next_id w); split; [exact I|lia]|exact K].
      * right. split; [exists i; split; [exact I|lia]|exact K].
Qed.

(** The rows the service writes are valid rows. *)
Lemma serve_valid_rows requests w :
  Forall (fun t => Task.valid t = true) (rows w) ->
  Forall (fun t => Task.valid t = true) (rows (snd (SERVE requests w))).
Proof.
  intros V. rewrite Forall_forall in *. intros t H.
  destruct (serve_step requests w) as (_ & _ & R).
  destruct (R t H) as [H'|(_ & _ & K)]; [now apply V|exact K].
Qed.

End App.

(** ** Listing *)

Lemma to_response_valid t w :
  Task.valid t = true ->
  exists r, Tasks.to_response t w = (Ok r, w) /\ Spec.shows r t.
Proof.
  unfold Task.valid, Tasks.to_response, TaskResponse.new, lift, Spec.shows.
  destruct t as [[i|] [ti|] de [st|] [pr|] da ex us cr up co]; cbn;
    try discriminate.
  intros V. apply andb_true_iff in V. destruct V as [V _]. rewrite V.
  eexists. split; [reflexivity|]. cbn. repeat split.
Qed.





(** ** Validation of a create body *)

Lemma string_rule_reported mn mx v rule :
  Spec.string_rule mn mx v = Some rule ->
  exists ty m, Pydantic.str_field mn mx v = inl (ty, m) /\ Spec.reported_as rule ty.
Proof.
  unfold Spec.string_rule, Pydantic.str_field.
  destruct v; try (intros H; inversion H; subst; do 2 eexists; split; reflexivity).
  destruct (len s <? mn).
  - intros H; inversion H; subst. do 2 eexists; split; reflexivity.
  - destruct (mx <? len s); [|discriminate].
    intros H; inversion H; subst. do 2 eexists; split; reflexivity.
Qed.

Lemma nullable_string_rule_reported mx v rule :
  Spec.nullable (Spec.string_rule 0 mx) v = Some rule ->
  exists ty m,
    Pydantic.optional (Pydantic.str_field 0 mx) v = inl (ty, m)
    /\ Spec.reported_as rule ty.
Proof.
  intros H.
  assert (N : v <> JNull) by (intros ->; discriminate H).
  assert (R : Spec.string_rule 0 mx v = Some rule) by (destruct v; easy).
  destruct (string_rule_reported _ _ _ _ R) as (ty & m & E & P).
  exists ty, m. split; [|exact P].
  unfold Pydantic.optional. rewrite E. destruct v; easy.
Qed.

Lemma nullable_integer_rule_reported str_as_int v rule :
  Spec.nullable (Spec.integer_rule str_as_int) v = Some rule ->
  exists ty m,
    Pydantic.optional (Pydantic.int_field str_as_int) v = inl (ty, m)
    /\ Spec.reported_as rule ty.
Proof.
  unfold Spec.nullable, Spec.integer_rule, Pydantic.optional, Pydantic.int_field,
    Pydantic.float_as_int.
  destruct v as [|b|z|x|s|l|items]; try discriminate.
  - destruct x as [m e|n|];
      [destruct (Pydantic.float_integral m e) as [z|];
       [destruct (_ && _); [discriminate|]|]| |];
      intros H; inversion H; subst; do 2 eexists;
      (split; [reflexivity|cbn; auto 10]).
  - destruct (str_as_int s); [discriminate|].
    intros H; inversion H; subst. do 2 eexists. split; [reflexivity|cbn; auto 10].
  - intros H; inversion H; subst. do 2 eexists. split; [reflexivity|cbn; auto 10].
  - intros H; inversion H; subst. do 2 eexists. split; [reflexivity|cbn; auto 10].
Qed.

Lemma field_inl {A} name items (validator : json -> Pydantic.FieldResult A)
    default v ty m :
  dict_get name items = Some v ->
  validator v = inl (ty, m) ->
  Pydantic.field name items validator default
  = inl [Pydantic.mkError ["body"; name] m ty (Some v)].
Proof.
  intros G E. unfold Pydantic.field. rewrite G, E. reflexivity.
Qed.

Section CreateBody.
Context (str_as_int : string -> option Z).

(** The errors of the six fields, as [TaskCreate.validate] collects them. *)
Lemma validate_collects items e0 :
  let errors :=
    (Pydantic.errors_of (Pydantic.field "title" items (Pydantic.str_field 1 255) None)
     ++ Pydantic.errors_of
          (Pydantic.field "description" items
             (Pydantic.optional (Pydantic.str_field 0 1000)) (Some None))
     ++ Pydantic.errors_of
          (Pydantic.field "status" items (Pydantic.str_field 0 50) (Some "pending"))
     ++ Pydantic.errors_of
          (Pydantic.field "priority" items (Pydantic.str_field 0 20) (Some "medium"))
     ++ Pydantic.errors_of
          (Pydantic.field "user_id" items
             (Pydantic.optional (Pydantic.str_field 0 100)) (Some None))
     ++ Pydantic.errors_of
          (Pydantic.field "external_id" items
             (Pydantic.optional (Pydantic.int_field str_as_int)) (Some None)))%list in
  In e0 errors ->
  TaskCreate.validate str_as_int (JDict items) = inl errors.
Proof.
  cbv zeta. unfold TaskCreate.validate.
  destruct (Pydantic.field "title" _ _ _);
  destruct (Pydantic.field "description" _ _ _);
  destruct (Pydantic.field "status" _ _ _);
  destruct (Pydantic.field "priority" _ _ _);
  destruct (Pydantic.field "user_id" _ _ _);
  destruct (Pydantic.field "external_id" _ _ _);
  try reflexivity.
  intros [].
Qed.

Lemma violated_reported items field rule :
  Spec.violated str_as_int items field = Some rule ->
  exists errors e,
    TaskCreate.validate str_as_int (JDict items) = inl errors
    /\ In e errors
    /\ Pydantic.loc e = ["body"; field]
    /\ Spec.reported_as rule (Pydantic.type e).
Proof.
  unfold Spec.violated.
  destruct (dict_get field items) as [v|] eqn:G.
  - destruct (String.eqb field "title") eqn:E1;
      [apply String.eqb_eq in E1; subst field; intros R;
       destruct (string_rule_reported _ _ _ _ R) as (ty & m & E & P)|].
    2: destruct (String.eqb field "description") eqn:E2;
      [apply String.eqb_eq in E2; subst field; intros R;
       destruct (nullable_string_rule_reported _ _ _ R) as (ty & m & E & P)|].
    3: destruct (String.eqb field "status") eqn:E3;
      [apply String.eqb_eq in E3; subst field; intros R;
       destruct (string_rule_reported _ _ _ _ R) as (ty & m & E & P)|].
    4: destruct (String.eqb field "priority") eqn:E4;
      [apply String.eqb_eq in E4; subst field; intros R;
       destruct (string_rule_reported _ _ _ _ R) as (ty & m & E & P)|].
    5: destruct (String.eqb field "user_id") eqn:E5;
      [apply String.eqb_eq in E5; subst field; intros R;
       destruct (nullable_string_rule_reported _ _ _ R) as (ty & m & E & P)|].
    6: destruct (String.eqb field "external_id") eqn:E6;
      [apply String.eqb_eq in E6; subst field; intros R;
       destruct (nullable_integer_rule_reported _ _ _ R) as (ty & m & E & P)
      |discriminate].
    all: match goal with
         | G' : dict_get ?n _ = Some ?v', E' : _ = inl (?ty', ?m') |- _ =>
             pose (e := Pydantic.mkError ["body"; n] m' ty' (Some v'))
         end.
    all: eexists _, e.
    all: split; [apply (validate_collects items e)
                |split; [|split; [reflexivity|exact P]]].
    all: repeat match goal with
           | |- In _ (Pydantic.errors_of (Pydantic.field ?n _ _ _) ++ _)%list =>
               apply in_or_app;
               first [ left; erewrite (field_inl n) by eassumption; left; reflexivity
                     | right ]
           | |- In _ (Pydantic.errors_of (Pydantic.field ?n _ _ _)) =>
               erewrite (field_inl n) by eassumption; left; reflexivity
           end.
  - destruct (String.eqb field "title") eqn:E1; [|discriminate].
    apply String.eqb_eq in E1; subst field.
    intros R; inversion R; subst.
    assert (F : Pydantic.field "title" items (Pydantic.str_field 1 255) None
                = inl [Pydantic.mkError ["body"; "title"] "Field required"
                         "missing" (Some (JDict items))])
      by (unfold Pydantic.field; rewrite G; reflexivity).
    eexists _, _. split; [eapply validate_collects|].
    + rewrite F. left. reflexivity.
    + split; [rewrite F; left; reflexivity|]. split; reflexivity.
Qed.

End CreateBody.

(** ** The enrichment client on an upstream error status *)

(** Every upstream status of 400 or more, 404 included, leaves
    fetch_external_data as an ExternalAPIException of status 500: the
    exception raised for the status is caught by the function's own
    [except Exception] clause and wrapped again. *)
Lemma fetch_external_data_error_status base timeout n w r :
  upstream w (Spec.url_of base n) = Responded r ->
  400 <= resp_status_code r ->
  exists message,
    fst (ExternalApi.fetch_external_data base timeout n w)
    = Raise (ExternalAPIException message (Some 500)).
Proof.
  intros U S.
  unfold ExternalApi.fetch_external_data, ExternalApi.client_get,
    ExternalApi.except_clauses.
  run. fold (Spec.url_of base n). rewrite U.
  destruct (Z.eqb (resp_status_code r) 404); [eexists; reflexivity|].
  apply Z.leb_le in S. rewrite S. eexists; reflexivity.
Qed.

(** A stalled connection is the one failure the client reports under its
    own status: the first except clause answers 408. *)
Example fetch_external_data_timeout :
  fst (Scenario.fetch_external_data 1
         (mkWorld [] 1 Scenario.running_clock 0 Scenario.upstream_stalled [] []))
  = Raise (ExternalAPIException "Request to external API timed out after 10 seconds"
                                (Some 408)).
Proof. reflexivity. Qed.

(** ** The bounds of the database *)




(** ** Rows, request by request *)

Lemma find_app {A} (f : A -> bool) (l l' : list A) :
  find f (l ++ l')%list
  = match find f l with
    | Some x => Some x
    | None => find f l'
    end.
Proof.
  induction l as [|a l IH]; cbn; [reflexivity|].
  destruct (f a); [reflexivity|exact IH].
Qed.

Lemma find_filter_other i j (l : list Task.t) :
  j <> i ->
  find (Session.has_id j) (filter (fun r => negb (Session.has_id i r)) l)
  = find (Session.has_id j) l.
Proof.
  intros NE. induction l as [|a l IH]; cbn; [reflexivity|].
  destruct (Session.has_id i a) eqn:Hi; cbn.
  - assert (Session.has_id j a = false) as ->; [|exact IH].
    unfold Session.has_id in *. destruct (Task.id a); [|reflexivity].
    apply Z.eqb_eq in Hi. subst. apply Z.eqb_neq. congruence.
  - destruct (Session.has_id j a); [reflexivity|exact IH].
Qed.

Lemma get_task_missing task_id w :
  find (Session.has_id task_id) (rows w) = None ->
  Tasks.get_task task_id w
  = (Raise (HTTPException 404 ("Task with ID " ++ str_int task_id ++ " not found")), w).
Proof.
  intros F. unfold Tasks.get_task. run. rewrite F. reflexivity.
Qed.

Lemma delete_task_missing task_id w :
  find (Session.has_id task_id) (rows w) = None ->
  Tasks.delete_task task_id w
  = (Raise (HTTPException 404 ("Task with ID " ++ str_int task_id ++ " not found")), w).
Proof.
  intros F. unfold Tasks.delete_task. run. rewrite F. reflexivity.
Qed.

Lemma delete_task_existing task_id w t :
  find (Session.has_id task_id) (rows w) = Some t ->
  Tasks.delete_task task_id w
  = (Ok tt,
     ExceptionHandlers.log INFO ("Deleted task with ID: " ++ str_int task_id)
       (set_rows (filter (fun r => negb (Session.has_id task_id r)) (rows w)) w)).
Proof.
  intros F. unfold Tasks.delete_task. run.
  rewrite F, (find_has_id _ _ _ F). reflexivity.
Qed.

Section Rows.
Context (str_dict : json -> string) (str_as_int : string -> option Z).
Context (str_errors : list Pydantic.ErrorDetails -> string).
Context (base : string) (timeout : Z).

Local Notation "'APP'" := (Main.app str_dict str_as_int str_errors base timeout).

(** The three things a request can do to the rows: nothing, remove the
    rows of one id, append one valid row under the next id. *)
Lemma app_rows request w :
  let w' := snd (APP request w) in
  next_id w <= next_id w'
  /\ (rows w' = rows w
      \/ (exists i, rows w' = filter (fun r => negb (Session.has_id i r)) (rows w))
      \/ (exists t, rows w' = (rows w ++ [t])%list
                    /\ Task.id t = Some (next_id w)
                    /\ next_id w' = next_id w + 1
                    /\ Task.valid t = true
                    /\ Task.completed_at t = None)).
Proof.
  assert (quiet : forall A (success : A -> JSONResponse) (r : Result A * World),
             Spec.same_table w (snd r) ->
             next_id w <= next_id (snd (Main.answer success r))
             /\ (rows (snd (Main.answer success r)) = rows w \/ False)).
  { intros A success r [R N].
    destruct (answer_frame success r) as [R' N']. rewrite R', N', R, N.
    split; [lia|now left]. }
  assert (rejected : forall errors,
             let r := Main.handled (validation_exception_handler str_errors errors w) in
             next_id w <= next_id (snd r) /\ (rows (snd r) = rows w \/ False)).
  { intros errors. cbv zeta.
    destruct (handled_validation str_errors errors w) as [[R N] _].
    rewrite R, N. split; [lia|now left]. }
  destruct request as [body0|task_id|task_id body0|task_id|skip limit sf pf];
    cbn [Main.app]; cbv zeta.
  - destruct (TaskCreate.validate str_as_int body0) as [errors|task_data] eqn:V.
    + destruct (rejected errors) as [N [R|[]]]. split; [exact N|now left].
    + apply validate_valid in V.
      destruct (Session.fits_integer (TaskCreate.external_id task_data)) eqn:F.
      * destruct (create_task_runs str_dict base timeout task_data w V F)
          as (data & w' & -> & R & N & _).
        cbn. rewrite R, N. split; [lia|]. right; right.
        eexists. split; [reflexivity|]. split; [reflexivity|]. split; [reflexivity|].
        split; [exact V|reflexivity].
      * destruct (quiet _ (fun task => mkJSONResponse 201 (TaskBody task))
                    (Tasks.create_task str_dict base timeout task_data w)
                    (proj2 (create_task_out_of_range str_dict base timeout
                              task_data w F))) as [N [R|[]]].
        split; [exact N|now left].
  - destruct (quiet _ (fun task => mkJSONResponse 200 (TaskBody task))
                (Tasks.get_task task_id w) (get_task_frame task_id w)) as [N [R|[]]].
    split; [exact N|now left].
  - destruct (TaskUpdate.validate body0) as [errors|task_data].
    + destruct (rejected errors) as [N [R|[]]]. split; [exact N|now left].
    + destruct (quiet _ (fun task => mkJSONResponse 200 (TaskBody task))
                  (Tasks.update_task task_id task_data w)
                  (update_task_frame task_id task_data w)) as [N [R|[]]].
      split; [exact N|now left].
  - destruct (find (Session.has_id task_id) (rows w)) as [t|] eqn:F.
    + rewrite (delete_task_existing _ _ _ F). cbn. split; [lia|].
      right; left. now exists task_id.
    + rewrite (delete_task_missing _ _ F). cbn. split; [lia|now left].
  - destruct (Main.query_int str_as_int "skip" 0 0 None skip) as [e1|skip'];
      [destruct (rejected (e1 ++ Pydantic.errors_of
                                   (Main.query_int str_as_int "limit" 10 1 (Some 100)
                                                   limit))%list) as [N [R|[]]];
       split; [exact N|now left]|].
    destruct (Main.query_int str_as_int "limit" 10 1 (Some 100) limit) as [e2|limit'];
      [destruct (rejected ([] ++ e2)%list) as [N [R|[]]];
       split; [exact N|now left]|].
    destruct (quiet _ (fun page => mkJSONResponse 200 (TaskListBody page))
                (Tasks.list_tasks skip' limit' sf pf w)
                (list_tasks_frame _ _ sf pf w)) as [N [R|[]]].
    split; [exact N|now left].
Qed.

(** The row found under an id after a request is the row that was found
    under it before; under an id that had no row, it is a new row, whose
    completed_at is unset. *)
Lemma find_after_request request w i t' :
  find (Session.has_id i) (rows (snd (APP request w))) = Some t' ->
  match find (Session.has_id i) (rows w) with
  | Some t => t' = t
  | None => Task.completed_at t' = None
  end.
Proof.
  intros H. destruct (app_rows request w) as (_ & R). cbv zeta in R.
  destruct R as [R|[[j R]|(t & R & _ & _ & _ & C)]]; rewrite R in H.
  - rewrite H. reflexivity.
  - destruct (Z.eq_dec i j) as [->|NE].
    + rewrite find_filter_out in H. discriminate H.
    + rewrite (find_filter_other j i _ NE) in H. rewrite H. reflexivity.
  - rewrite find_app in H.
    destruct (find (Session.has_id i) (rows w)) as [t0|];
      [inversion H; reflexivity|].
    cbn in H. destruct (Session.has_id i t); inversion H; subst. exact C.
Qed.

End Rows.

(** ** Keys an update body does not read *)

Lemma fold_get_without key other items : forall acc,
  key <> other ->
  fold_left (fun acc kv => if String.eqb (fst kv) key then Some (snd kv) else acc)
            (Spec.without other items) acc
  = fold_left (fun (acc : option json) kv =>
                 if String.eqb (fst kv) key then Some (snd kv) else acc)
              items acc.
Proof.
  induction items as [|[k v] items IH]; intros acc NE; [reflexivity|].
  cbn [Spec.without filter fst snd fold_left].
  destruct (String.eqb k other) eqn:E; cbn [negb].
  - apply String.eqb_eq in E. subst k.
    assert (String.eqb other key = false) as -> by (apply String.eqb_neq; congruence).
    apply IH, NE.
  - cbn [fold_left fst snd]. apply IH, NE.
Qed.

Lemma dict_get_without key other items :
  key <> other -> dict_get key (Spec.without other items) = dict_get key items.
Proof. intros NE. unfold dict_get. now apply fold_get_without. Qed.

Lemma validate_update_without items :
  TaskUpdate.validate (JDict (Spec.without "completed_at" items))
  = TaskUpdate.validate (JDict items).
Proof.
  unfold TaskUpdate.validate, Pydantic.field_set.
  rewrite !dict_get_without by discriminate. reflexivity.
Qed.

(** * The claims *)

(** C1 (the code departs from the claim). update_task on the id of a
    stored task, with the payload of the repository's own test
    (status "completed"): the handler raises while computing the new
    updated_at, answers 500, and the stored record keeps every prior
    value, status and updated_at included. *)
Theorem update_task_existing_id_answers_500 :
  fst (Tasks.update_task 1 Scenario.status_completed Scenario.one_task_world)
  = Raise (HTTPException 500 "An error occurred while updating the task")
  /\ rows (snd (Tasks.update_task 1 Scenario.status_completed Scenario.one_task_world))
     = [Scenario.original_task].
Proof.
  rewrite (update_task_existing 1 Scenario.status_completed Scenario.one_task_world
             Scenario.original_task eq_refl).
  split; reflexivity.
Qed.

(** C2 (the code departs from the claim). fetch_external_data 99999
    against a source that answers 404 fails with status 500, not 404. *)
Theorem fetch_external_data_404_answers_500 :
  fst (Scenario.fetch_external_data 99999 Scenario.empty_world)
  = Raise (ExternalAPIException
             ("Unexpected error when fetching data from external API: "
              ++ "Resource with ID 99999 not found in external API")
             (Some 500)).
Proof. reflexivity. Qed.




(** C4, as stated, fails: an update whose payload provides completed_at
    does not set it. The update schema has no such field, the key is
    dropped when the body is read, and the stored value stays unset. *)
Lemma update_ignores_completed_at :
  TaskUpdate.validate (JDict [("completed_at", JStr "2024-01-01T00:00:00")])
  = inr (TaskUpdate.mk None None None None None)
  /\ TaskUpdate.model_dump_exclude_unset (TaskUpdate.mk None None None None None) = []
  /\ map Task.completed_at
         (rows (snd (Scenario.app
                       (Main.PUT_task 1 (JDict [("completed_at",
                                                 JStr "2024-01-01T00:00:00")]))
                       Scenario.one_task_world)))
     = [None].
Proof. repeat split; reflexivity. Qed.

(** C4, amended. No operation ever sets completed_at, and updateTask
    never changes it.
    - Across any request, the completed_at found under an id is the one
      that was stored under it, and a row under an id that had none has
      it unset (createTask stores it unset).
    - A completed_at supplied in an update payload is ignored: the body
      is read, and the request answered, as the same body without that
      key.
    - The fields an update assigns never include completed_at, and the
      assignments, which succeed for every payload, leave the value as it
      was, whatever it was; so does the assignment of updated_at.
    - The attribute itself can be assigned: what keeps it as it is, is
      the update schema, which has no such field. *)
Theorem completed_at_never_set
    (str_dict : json -> string) (str_as_int : string -> option Z)
    (str_errors : list Pydantic.ErrorDetails -> string)
    (base : string) (timeout : Z) :
  (forall request w i t',
      find (Session.has_id i)
           (rows (snd (Main.app str_dict str_as_int str_errors base timeout
                                request w))) = Some t' ->
      match find (Session.has_id i) (rows w) with
      | Some t => Task.completed_at t' = Task.completed_at t
      | None => Task.completed_at t' = None
      end)
  /\ (forall task_id items w,
         TaskUpdate.validate (JDict items)
         = TaskUpdate.validate (JDict (Spec.without "completed_at" items))
         /\ Main.app str_dict str_as_int str_errors base timeout
                     (Main.PUT_task task_id (JDict items)) w
            = Main.app str_dict str_as_int str_errors base timeout
                       (Main.PUT_task task_id
                          (JDict (Spec.without "completed_at" items))) w)
  /\ (forall task_data t updated_at,
         ~ In "completed_at"
              (map fst (TaskUpdate.model_dump_exclude_unset task_data))
         /\ exists t',
              Tasks.setattr_items (TaskUpdate.model_dump_exclude_unset task_data) t
              = Ok t'
              /\ Task.completed_at t' = Task.completed_at t
              /\ Task.completed_at (Task.set_updated_at updated_at t')
                 = Task.completed_at t)
  /\ (forall t d,
         Tasks.setattr t "completed_at" (PDatetime d)
         = Ok (Task.set_completed_at (Some d) t)).
Proof.
  split; [|split; [|split]].
  - intros request w i t' H.
    pose proof (find_after_request str_dict str_as_int str_errors base timeout
                  request w i t' H) as K.
    destruct (find (Session.has_id i) (rows w)) as [t|]; [now subst|exact K].
  - intros task_id items w.
    pose proof (validate_update_without items) as E.
    split; [now symmetry|].
    cbn [Main.app]. rewrite E. reflexivity.
  - intros task_data t updated_at. split.
    + destruct task_data as [[a|] [b|] [c|] [d|] [e|]]; cbn;
        intuition discriminate.
    + destruct (setattr_items_dump task_data t) as (t' & E & C & _).
      exists t'. split; [exact E|]. split; [exact C|exact C].
  - intros t d. reflexivity.
Qed.

Lemma completed_at_never_set_witness :
  find (Session.has_id 1)
       (rows (snd (Scenario.app
                     (Main.PUT_task 1 (JDict [("completed_at", JNull);
                                              ("status", JStr "pending")]))
                     Scenario.completed_world)))
  = Some Scenario.completed_task
  /\ Task.completed_at Scenario.completed_task = Some 1700000000000005.
Proof.
  assert (F : find (Session.has_id 1)
                   (rows (snd (Scenario.app
                                 (Main.PUT_task 1 (JDict [("completed_at", JNull);
                                                          ("status", JStr "pending")]))
                                 Scenario.completed_world)))
              = Some Scenario.completed_task) by reflexivity.
  split; [exact F|].
  exact (proj1 (completed_at_never_set Scenario.str_dict Scenario.str_as_int
                  Scenario.str_errors Scenario.base_url Scenario.timeout)
               (Main.PUT_task 1 (JDict [("completed_at", JNull);
                                        ("status", JStr "pending")]))
               Scenario.completed_world 1 Scenario.completed_task F).
Defined.







(** The run of the previous lemma, evaluated: the first task got id 1,
    was deleted, and the next creation gets id 2, not 1 again. *)
Example create_after_delete_gets_new_id :
  Spec.created_ids
    (fst (Scenario.serve [Main.POST_tasks (JDict [("title", JStr "First")]);
                          Main.DELETE_task 1]
                         Scenario.empty_world)) = [1]
  /\ fst (Scenario.create_task (Scenario.new_task None)
            (snd (Scenario.serve [Main.POST_tasks (JDict [("title", JStr "First")]);
                                  Main.DELETE_task 1]
                                 Scenario.empty_world)))
     = Ok (Spec.returned (Scenario.new_task None) 2
                         1700000000000002 1700000000000003).
Proof. split; reflexivity. Qed.

(** C7 (the code departs from the claim). A create body whose title is
    the number NaN breaks the constraint on title (a string is required).
    The validation handler echoes the offending input into its answer,
    the answer cannot be rendered, the handler raises, and the request is
    answered by the handler for Exception: status 500 with error_code
    INTERNAL_ERROR, not 422 with VALIDATION_ERROR and the violation. *)
Theorem create_task_nan_body_answers_500 :
  Spec.violated Scenario.str_as_int [("title", JFloat FNaN)] "title"
  = Some Spec.IsString
  /\ fst (Scenario.app (Main.POST_tasks (JDict [("title", JFloat FNaN)]))
                       Scenario.empty_world)
     = ExceptionHandlers.mkJSONResponse
         500
         (ExceptionHandlers.Content
            (JDict [("detail", JStr "An internal server error occurred");
                    ("error_code", JStr "INTERNAL_ERROR")]))
  /\ rows (snd (Scenario.app (Main.POST_tasks (JDict [("title", JFloat FNaN)]))
                             Scenario.empty_world)) = [].
Proof. repeat split; reflexivity. Qed.

(** C8. For every task id, when delete_task succeeds the record is gone
    from the table, and get_task on the same id, run next, fails with
    the 404 not-found error. *)
Theorem delete_then_get_not_found (w : World) (task_id : Z) :
  fst (Tasks.delete_task task_id w) = Ok tt ->
  find (Session.has_id task_id) (rows (snd (Tasks.delete_task task_id w))) = None
  /\ fst (Tasks.get_task task_id (snd (Tasks.delete_task task_id w)))
     = Raise (HTTPException 404 ("Task with ID " ++ str_int task_id ++ " not found")).
Proof. exact (delete_task_removes w task_id). Qed.

Lemma delete_then_get_not_found_witness :
  fst (Tasks.delete_task 1 Scenario.one_task_world) = Ok tt
  /\ (find (Session.has_id 1)
            (rows (snd (Tasks.delete_task 1 Scenario.one_task_world))) = None
      /\ fst (Tasks.get_task 1 (snd (Tasks.delete_task 1 Scenario.one_task_world)))
         = Raise (HTTPException 404 ("Task with ID " ++ str_int 1 ++ " not found"))).
Proof.
  split; [reflexivity|].
  exact (delete_then_get_not_found Scenario.one_task_world 1 eq_refl).
Defined.



(** C10. For every list_tasks call, a status filter or a priority filter
    given as the empty string changes nothing: the call does what the
    same call with that filter absent does. *)
Theorem list_tasks_empty_filter_is_absent
    (skip limit : Z) (status_filter priority_filter : option string) (w : World) :
  Tasks.list_tasks skip limit (Some "") priority_filter w
  = Tasks.list_tasks skip limit None priority_filter w
  /\ Tasks.list_tasks skip limit status_filter (Some "") w
     = Tasks.list_tasks skip limit status_filter None w.
Proof. split; reflexivity. Qed.

(** * Further properties of the code *)

(** ** The enrichment client *)

(** X1. When the remote answers with a status below 400 and a body that
    decodes, fetch_external_data returns the decoded body, after one
    request to base + /posts/{id}. *)
Theorem fetch_external_data_returns_payload
    (base : string) (timeout : Z) (n : Z) (w : World) (r : HttpResponse) (v : json) :
  upstream w (Spec.url_of base n) = Responded r ->
  resp_status_code r < 400 ->
  resp_json r = Some v ->
  ExternalApi.fetch_external_data base timeout n w
  = (Ok v, set_sent (sent w ++ [Spec.url_of base n])%list w).
Proof.
  intros U S J.
  unfold ExternalApi.fetch_external_data, ExternalApi.client_get,
    ExternalApi.response_json.
  run. fold (Spec.url_of base n). rewrite U.
  assert (Z.eqb (resp_status_code r) 404 = false) as -> by (apply Z.eqb_neq; lia).
  assert ((400 <=? resp_status_code r) = false) as -> by (apply Z.leb_gt; lia).
  rewrite J. reflexivity.
Qed.

Lemma fetch_external_data_returns_payload_witness :
  upstream (Scenario.world_with Scenario.upstream_ok)
           (Spec.url_of Scenario.base_url 1)
  = Responded (mkHttpResponse 200 "{...}" (Some Scenario.a_post) "")
  /\ resp_status_code (mkHttpResponse 200 "{...}" (Some Scenario.a_post) "") < 400
  /\ resp_json (mkHttpResponse 200 "{...}" (Some Scenario.a_post) "")
     = Some Scenario.a_post
  /\ ExternalApi.fetch_external_data Scenario.base_url Scenario.timeout 1
       (Scenario.world_with Scenario.upstream_ok)
     = (Ok Scenario.a_post,
        set_sent (sent (Scenario.world_with Scenario.upstream_ok)
                  ++ [Spec.url_of Scenario.base_url 1])%list
                 (Scenario.world_with Scenario.upstream_ok)).
Proof.
  split; [reflexivity|]. split; [cbn; lia|]. split; [reflexivity|].
  apply (fetch_external_data_returns_payload
           Scenario.base_url Scenario.timeout 1
           (Scenario.world_with Scenario.upstream_ok)
           (mkHttpResponse 200 "{...}" (Some Scenario.a_post) "") Scenario.a_post);
    [reflexivity|cbn; lia|reflexivity].
Defined.

(** X2. Whatever goes wrong, fetch_external_data raises an
    ExternalAPIException whose status is 408, 502 or 500: 408 exactly when
    the client timed out, 502 exactly when it raised another request
    error. No exception of the HTTP client escapes. *)
Theorem fetch_external_data_failure_status
    (base : string) (timeout : Z) (n : Z) (w : World) (e : exn) :
  fst (ExternalApi.fetch_external_data base timeout n w) = Raise e ->
  exists message status,
    e = ExternalAPIException message (Some status)
    /\ (status = 408 \/ status = 502 \/ status = 500)
    /\ (status = 408 <->
        exists m, upstream w (Spec.url_of base n) = Failed (TimeoutException m))
    /\ (status = 502 <->
        exists m, upstream w (Spec.url_of base n) = Failed (RequestError m)).
Proof.
  unfold ExternalApi.fetch_external_data, ExternalApi.client_get,
    ExternalApi.response_json, ExternalApi.except_clauses.
  run. fold (Spec.url_of base n).
  destruct (upstream w (Spec.url_of base n)) as [r|e'].
  - assert (T : forall s : Z, s = 500 ->
               (s = 408 \/ s = 502 \/ s = 500)
               /\ (s = 408 <-> exists m, Responded r = Failed (TimeoutException m))
               /\ (s = 502 <-> exists m, Responded r = Failed (RequestError m))).
    { intros s ->. split; [auto|].
      split; (split; [discriminate|intros [m H]; discriminate H]). }
    destruct (Z.eqb (resp_status_code r) 404); cbn.
    + intros H; inversion H; subst. eexists _, _. split; [reflexivity|now apply T].
    + destruct (400 <=? resp_status_code r); cbn.
      * intros H; inversion H; subst. eexists _, _. split; [reflexivity|now apply T].
      * destruct (resp_json r); cbn; [discriminate|].
        intros H; inversion H; subst. eexists _, _. split; [reflexivity|now apply T].
  - destruct e'; cbn; intros H; inversion H; subst; eexists _, _;
      (split; [reflexivity|]); (split; [auto|]);
      split; split;
      try discriminate; try (intros [m' H']; discriminate H');
      try (intros _; eexists; reflexivity).
Qed.

Lemma fetch_external_data_failure_status_witness :
  fst (ExternalApi.fetch_external_data Scenario.base_url Scenario.timeout 1
         (Scenario.world_with Scenario.upstream_down))
  = Raise (ExternalAPIException
             ("Request error when connecting to external API: "
              ++ "All connection attempts failed") (Some 502))
  /\ exists message status,
       ExternalAPIException
         ("Request error when connecting to external API: "
          ++ "All connection attempts failed") (Some 502)
       = ExternalAPIException message (Some status)
       /\ (status = 408 \/ status = 502 \/ status = 500)
       /\ (status = 408 <->
           exists m, upstream (Scenario.world_with Scenario.upstream_down)
                              (Spec.url_of Scenario.base_url 1)
                     = Failed (TimeoutException m))
       /\ (status = 502 <->
           exists m, upstream (Scenario.world_with Scenario.upstream_down)
                              (Spec.url_of Scenario.base_url 1)
                     = Failed (RequestError m)).
Proof.
  split; [reflexivity|].
  exact (fetch_external_data_failure_status
           Scenario.base_url Scenario.timeout 1
           (Scenario.world_with Scenario.upstream_down) _ eq_refl).
Defined.

(** X3. One call of fetch_external_data is one attempt: whatever the
    outcome, exactly one request, to base + /posts/{id}, is added to the
    requests sent, and nothing else in the world changes (the task table,
    the id sequence, the clock and the log are as before). *)
Theorem fetch_external_data_single_attempt
    (base : string) (timeout : Z) (n : Z) (w : World) :
  snd (ExternalApi.fetch_external_data base timeout n w)
  = set_sent (List.app (sent w) [base ++ "/posts/" ++ str_int n]) w.
Proof. exact (fetch_world base timeout n w). Qed.

(** X4. fetch_external_data_list sends exactly one request, to
    base + /posts?_limit={limit}, and changes nothing else. It returns a
    payload exactly when the remote answers below 400 with a body that
    decodes, and the payload is then that decoded body. In every other
    case it raises an ExternalAPIException whose status is 408, 502 or
    500: 408 exactly when the client timed out, 502 exactly when it
    raised another request error. *)
Theorem fetch_external_data_list_outcome
    (base : string) (timeout : Z) (limit : Z) (w : World) :
  let url := (base ++ "/posts") ++ "?_limit=" ++ str_int limit in
  let run := ExternalApi.fetch_external_data_list base timeout limit w in
  snd run = set_sent (sent w ++ [url])%list w
  /\ (forall v,
        fst run = Ok v
        <-> exists r, upstream w url = Responded r
                      /\ resp_status_code r < 400 /\ resp_json r = Some v)
  /\ (forall e,
        fst run = Raise e ->
        exists message status,
          e = ExternalAPIException message (Some status)
          /\ (status = 408 \/ status = 502 \/ status = 500)
          /\ (status = 408 <-> exists m, upstream w url = Failed (TimeoutException m))
          /\ (status = 502 <-> exists m, upstream w url = Failed (RequestError m))).
Proof.
  cbv zeta.
  unfold ExternalApi.fetch_external_data_list, ExternalApi.client_get,
    ExternalApi.response_json, ExternalApi.except_clauses.
  run.
  destruct (upstream w _) as [r|e0] eqn:U.
  - assert (T : forall s : Z, s = 500 ->
               (s = 408 \/ s = 502 \/ s = 500)
               /\ (s = 408 <-> exists m, Responded r = Failed (TimeoutException m))
               /\ (s = 502 <-> exists m, Responded r = Failed (RequestError m))).
    { intros s ->. split; [auto|].
      split; (split; [discriminate|intros [m H]; discriminate H]). }
    destruct (400 <=? resp_status_code r) eqn:S; cbn.
    + apply Z.leb_le in S. split; [reflexivity|]. split.
      * intros v. split; [discriminate|].
        intros (r' & E & L & _). inversion E; subst. lia.
      * intros e H. inversion H; subst. eexists _, _. split; [reflexivity|now apply T].
    + apply Z.leb_gt in S. destruct (resp_json r) as [v0|] eqn:J; cbn.
      * split; [reflexivity|]. split; [|discriminate].
        intros v. split.
        -- intros H. inversion H; subst. exists r. auto.
        -- intros (r' & E & _ & J'). inversion E; subst. congruence.
      * split; [reflexivity|]. split.
        -- intros v. split; [discriminate|].
           intros (r' & E & _ & J'). inversion E; subst. congruence.
        -- intros e H. inversion H; subst. eexists _, _.
           split; [reflexivity|now apply T].
  - destruct e0; cbn; (split; [reflexivity|]); split;
      try (intros v; split; [discriminate|intros (r' & E & _); discriminate E]);
      intros e H; inversion H; subst; eexists _, _;
      (split; [reflexivity|]); (split; [auto|]);
      split; split;
      try discriminate; try (intros [m' H']; discriminate H');
      try (intros _; eexists; reflexivity).
Qed.

Lemma fetch_external_data_list_outcome_witness :
  (exists r,
     upstream (Scenario.world_with Scenario.upstream_ok)
              ((Scenario.base_url ++ "/posts") ++ "?_limit=" ++ str_int 5)
     = Responded r
     /\ resp_status_code r < 400 /\ resp_json r = Some Scenario.a_post)
  /\ fst (ExternalApi.fetch_external_data_list Scenario.base_url Scenario.timeout 5
            (Scenario.world_with Scenario.upstream_ok))
     = Ok Scenario.a_post.
Proof.
  assert (U : exists r,
             upstream (Scenario.world_with Scenario.upstream_ok)
                      ((Scenario.base_url ++ "/posts") ++ "?_limit=" ++ str_int 5)
             = Responded r
             /\ resp_status_code r < 400 /\ resp_json r = Some Scenario.a_post).
  { eexists. split; [reflexivity|]. split; [cbn; lia|reflexivity]. }
  split; [exact U|].
  exact (proj2 (proj1 (proj2 (fetch_external_data_list_outcome
                                Scenario.base_url Scenario.timeout 5
                                (Scenario.world_with Scenario.upstream_ok)))
                      Scenario.a_post) U).
Defined.

(** ** Creating and reading back *)





Lemma get_task_found task_id w t :
  find (Session.has_id task_id) (rows w) = Some t ->
  Task.valid t = true ->
  exists r,
    Tasks.get_task task_id w
    = (Ok r, ExceptionHandlers.log
               INFO ("Retrieved task with ID: " ++ Tasks.str_opt_int (Task.id t)) w)
    /\ Spec.shows r t.
Proof.
  intros F V. unfold Tasks.get_task. run. rewrite F.
  match goal with
  | |- context [Tasks.to_response t ?W] =>
      destruct (to_response_valid t W V) as (r & E & S); rewrite E
  end.
  exists r. split; [reflexivity|exact S].
Qed.

(** X7. get_task on the id of a stored, valid row returns that row's
    values, and reads only: the table and the id sequence are unchanged. *)
Theorem get_task_returns_stored (task_id : Z) (w : World) (t : Task.t) :
  find (Session.has_id task_id) (rows w) = Some t ->
  Task.valid t = true ->
  exists response,
    fst (Tasks.get_task task_id w) = Ok response
    /\ Spec.shows response t
    /\ TaskResponse.id response = task_id
    /\ Spec.same_table w (snd (Tasks.get_task task_id w)).
Proof.
  intros F V. destruct (get_task_found task_id w t F V) as (r & E & S).
  exists r. rewrite E. split; [reflexivity|]. split; [exact S|].
  split; [|split; reflexivity].
  pose proof (find_has_id _ _ _ F) as I.
  destruct S as (S & _). rewrite I in S. now inversion S.
Qed.

Lemma get_task_returns_stored_witness :
  find (Session.has_id 1) (rows Scenario.one_task_world) = Some Scenario.original_task
  /\ Task.valid Scenario.original_task = true
  /\ exists response,
       fst (Tasks.get_task 1 Scenario.one_task_world) = Ok response
       /\ Spec.shows response Scenario.original_task
       /\ TaskResponse.id response = 1
       /\ Spec.same_table Scenario.one_task_world
                          (snd (Tasks.get_task 1 Scenario.one_task_world)).
Proof.
  split; [reflexivity|]. split; [reflexivity|].
  exact (get_task_returns_stored 1 Scenario.one_task_world Scenario.original_task
           eq_refl eq_refl).
Defined.




(** ** Missing ids, deletion and the update loop *)

(** X9. When no row has the id, GET, PUT (with an acceptable body) and
    DELETE on it are each answered 404 with the detail
    "Task with ID {id} not found" and no error_code, and the world is left
    exactly as it was: nothing is written and nothing is logged. *)
Theorem missing_id_answers_404
    (str_dict : json -> string) (str_as_int : string -> option Z)
    (str_errors : list Pydantic.ErrorDetails -> string)
    (base : string) (timeout : Z)
    (task_id : Z) (w : World) (body : json) (task_data : TaskUpdate.t) :
  find (Session.has_id task_id) (rows w) = None ->
  TaskUpdate.validate body = inr task_data ->
  let not_found :=
    ExceptionHandlers.mkJSONResponse
      404
      (ExceptionHandlers.Content
         (JDict [("detail",
                  JStr ("Task with ID " ++ str_int task_id ++ " not found"))])) in
  Main.app str_dict str_as_int str_errors base timeout (Main.GET_task task_id) w
  = (not_found, w)
  /\ Main.app str_dict str_as_int str_errors base timeout
              (Main.PUT_task task_id body) w
     = (not_found, w)
  /\ Main.app str_dict str_as_int str_errors base timeout (Main.DELETE_task task_id) w
     = (not_found, w).
Proof.
  intros F V. cbn [Main.app]. rewrite V.
  rewrite (get_task_missing _ _ F), (update_task_missing _ task_data _ F),
    (delete_task_missing _ _ F).
  repeat split.
Qed.

Lemma missing_id_answers_404_witness :
  find (Session.has_id 99999) (rows Scenario.one_task_world) = None
  /\ TaskUpdate.validate (JDict [("status", JStr "completed")])
     = inr Scenario.status_completed
  /\ let not_found :=
       ExceptionHandlers.mkJSONResponse
         404
         (ExceptionHandlers.Content
            (JDict [("detail",
                     JStr ("Task with ID " ++ str_int 99999 ++ " not found"))])) in
     Scenario.app (Main.GET_task 99999) Scenario.one_task_world
     = (not_found, Scenario.one_task_world)
     /\ Scenario.app (Main.PUT_task 99999 (JDict [("status", JStr "completed")]))
                     Scenario.one_task_world
        = (not_found, Scenario.one_task_world)
     /\ Scenario.app (Main.DELETE_task 99999) Scenario.one_task_world
        = (not_found, Scenario.one_task_world).
Proof.
  split; [reflexivity|]. split; [reflexivity|].
  exact (missing_id_answers_404
           Scenario.str_dict Scenario.str_as_int Scenario.str_errors
           Scenario.base_url Scenario.timeout 99999 Scenario.one_task_world
           (JDict [("status", JStr "completed")]) Scenario.status_completed
           eq_refl eq_refl).
Defined.

Lemma get_task_reads_find task_id w w' :
  find (Session.has_id task_id) (rows w') = find (Session.has_id task_id) (rows w) ->
  fst (Tasks.get_task task_id w') = fst (Tasks.get_task task_id w).
Proof.
  intros F. unfold Tasks.get_task, Tasks.to_response, lift. run. rewrite F.
  destruct (find _ (rows w)) as [t|]; [|reflexivity].
  cbn. destruct (TaskResponse.new _ _ _ _ _ _ _ _ _ _) as [r|e]; [reflexivity|].
  destruct e; reflexivity.
Qed.

(** X10. delete_task on a stored id succeeds and removes the rows with
    that id and no other: the remaining rows keep their order and values,
    the id sequence is not moved back, and get_task on any other id
    answers after the deletion what it answered before. *)
Theorem delete_task_removes_only_that_id (task_id : Z) (w : World) (t : Task.t) :
  find (Session.has_id task_id) (rows w) = Some t ->
  let w' := snd (Tasks.delete_task task_id w) in
  fst (Tasks.delete_task task_id w) = Ok tt
  /\ rows w' = filter (fun r => negb (Session.has_id task_id r)) (rows w)
  /\ next_id w' = next_id w
  /\ forall other, other <> task_id ->
       fst (Tasks.get_task other w') = fst (Tasks.get_task other w).
Proof.
  intros F.
  assert (E : Tasks.delete_task task_id w
              = (Ok tt,
                 ExceptionHandlers.log INFO ("Deleted task with ID: " ++ str_int task_id)
                   (set_rows (filter (fun r => negb (Session.has_id task_id r)) (rows w))
                             w))).
  { unfold Tasks.delete_task. run. rewrite F, (find_has_id _ _ _ F). reflexivity. }
  rewrite E. cbn [fst snd]. split; [reflexivity|]. split; [reflexivity|].
  split; [reflexivity|].
  intros other NE. apply get_task_reads_find. cbn. now apply find_filter_other.
Qed.

Lemma delete_task_removes_only_that_id_witness :
  find (Session.has_id 1) (rows Scenario.one_task_world) = Some Scenario.original_task
  /\ let w' := snd (Tasks.delete_task 1 Scenario.one_task_world) in
     fst (Tasks.delete_task 1 Scenario.one_task_world) = Ok tt
     /\ rows w' = filter (fun r => negb (Session.has_id 1 r))
                         (rows Scenario.one_task_world)
     /\ next_id w' = next_id Scenario.one_task_world
     /\ forall other, other <> 1 ->
          fst (Tasks.get_task other w')
          = fst (Tasks.get_task other Scenario.one_task_world).
Proof.
  split; [reflexivity|].
  exact (delete_task_removes_only_that_id 1 Scenario.one_task_world
           Scenario.original_task eq_refl).
Defined.

(** X11. The assignment loop of update_task, run on the fields that
    model_dump(exclude_unset=True) gives, never fails and merges field by
    field: a field that was set takes the payload's value (None
    included), a field that was not set keeps its value, and id,
    external_id, external_api_data, created_at, updated_at and
    completed_at are never assigned. *)
Theorem setattr_items_merges (task_data : TaskUpdate.t) (t : Task.t) :
  exists t',
    Tasks.setattr_items (TaskUpdate.model_dump_exclude_unset task_data) t = Ok t'
    /\ Task.title t' = Spec.merged (TaskUpdate.title task_data) (Task.title t)
    /\ Task.description t'
       = Spec.merged (TaskUpdate.description task_data) (Task.description t)
    /\ Task.status t' = Spec.merged (TaskUpdate.status task_data) (Task.status t)
    /\ Task.priority t' = Spec.merged (TaskUpdate.priority task_data) (Task.priority t)
    /\ Task.user_id t' = Spec.merged (TaskUpdate.user_id task_data) (Task.user_id t)
    /\ Task.id t' = Task.id t
    /\ Task.external_id t' = Task.external_id t
    /\ Task.external_api_data t' = Task.external_api_data t
    /\ Task.created_at t' = Task.created_at t
    /\ Task.updated_at t' = Task.updated_at t
    /\ Task.completed_at t' = Task.completed_at t.
Proof.
  destruct task_data as [[[a|]|] [[b|]|] [[c|]|] [[d|]|] [[e|]|]];
    (eexists; split; [reflexivity|]); cbn; repeat split.
Qed.

(** ** Reading request bodies *)

Lemma field_set_inr name items mn mx o :
  Pydantic.field_set name items (Pydantic.optional (Pydantic.str_field mn mx)) = inr o ->
  match dict_get name items with
  | None => o = None
  | Some j => exists v, o = Some v /\ Spec.payload_value j = Some v
  end.
Proof.
  unfold Pydantic.field_set. destruct (dict_get name items) as [j|].
  - destruct (Pydantic.optional _ j) as [[ty m]|v] eqn:E; [discriminate|].
    intros H; inversion H; subst. exists v. split; [reflexivity|].
    unfold Pydantic.optional, Pydantic.str_field in E.
    destruct j; try discriminate.
    + inversion E; reflexivity.
    + destruct (len s <? mn); [discriminate|].
      destruct (mx <? len s); [discriminate|]. inversion E; reflexivity.
  - intros H; inversion H; reflexivity.
Qed.

Lemma in_item name o f v :
  In (f, v) (TaskUpdate.item name o) <-> f = name /\ o = Some v.
Proof.
  unfold TaskUpdate.item. destruct o as [value|]; cbn.
  - split.
    + intros [H|[]]. inversion H; subst. split; reflexivity.
    + intros [-> H]. inversion H; subst. left; reflexivity.
  - split; [intros []|intros [_ H]; discriminate H].
Qed.

(** X12. Presence, not nullability, decides what an update assigns: for
    every accepted update body, model_dump(exclude_unset=True) holds the
    pair (field, value) exactly when field is one of the five fields of
    the schema, the body has that key, and value is what the body gives
    for it, a null being kept as None. Keys outside the schema never
    appear. *)
Theorem update_payload_presence
    (items : list (string * json)) (task_data : TaskUpdate.t)
    (field : string) (value : option string) :
  TaskUpdate.validate (JDict items) = inr task_data ->
  (In (field, value) (TaskUpdate.model_dump_exclude_unset task_data)
   <-> In field Spec.update_fields
       /\ exists j, dict_get field items = Some j
                    /\ Spec.payload_value j = Some value).
Proof.
  unfold TaskUpdate.validate.
  destruct (Pydantic.field_set "title" _ _) as [?|a] eqn:Ea;
  destruct (Pydantic.field_set "description" _ _) as [?|b] eqn:Eb;
  destruct (Pydantic.field_set "status" _ _) as [?|c] eqn:Ec;
  destruct (Pydantic.field_set "priority" _ _) as [?|d] eqn:Ed;
  destruct (Pydantic.field_set "user_id" _ _) as [?|e] eqn:Ee;
  try discriminate.
  intros H; inversion H; subst. clear H.
  apply field_set_inr in Ea, Eb, Ec, Ed, Ee.
  unfold TaskUpdate.model_dump_exclude_unset, Spec.update_fields.
  cbn [TaskUpdate.title TaskUpdate.description TaskUpdate.status
       TaskUpdate.priority TaskUpdate.user_id].
  rewrite !in_app_iff, !in_item.
  assert (K : forall name o,
             match dict_get name items with
             | None => o = None
             | Some j => exists v, o = Some v /\ Spec.payload_value j = Some v
             end ->
             (o = Some value <->
              exists j, dict_get name items = Some j
                        /\ Spec.payload_value j = Some value)).
  { intros name o M. destruct (dict_get name items) as [j|].
    - destruct M as (v & -> & P). split.
      + intros Hv; inversion Hv; subst. now exists j.
      + intros (j' & Hj & P'). inversion Hj; subst. congruence.
    - subst o. split; [discriminate|intros (j & Hj & _); discriminate Hj]. }
  split.
  - intros [[-> Ho]|[[-> Ho]|[[-> Ho]|[[-> Ho]|[-> Ho]]]]];
      (split; [cbn; tauto|]); eapply K; eassumption.
  - intros [[<-|[<-|[<-|[<-|[<-|[]]]]]] Hj].
    + left. split; [reflexivity|]. now apply (K _ _ Ea).
    + right; left. split; [reflexivity|]. now apply (K _ _ Eb).
    + right; right; left. split; [reflexivity|]. now apply (K _ _ Ec).
    + right; right; right; left. split; [reflexivity|]. now apply (K _ _ Ed).
    + right; right; right; right. split; [reflexivity|]. now apply (K _ _ Ee).
Qed.

Lemma update_payload_presence_witness :
  TaskUpdate.validate (JDict [("description", JNull); ("completed_at", JInt 5)])
  = inr (TaskUpdate.mk None (Some None) None None None)
  /\ (In ("description", None)
         (TaskUpdate.model_dump_exclude_unset
            (TaskUpdate.mk None (Some None) None None None))
      <-> In "description" Spec.update_fields
          /\ exists j,
               dict_get "description" [("description", JNull); ("completed_at", JInt 5)]
               = Some j
               /\ Spec.payload_value j = Some None).
Proof.
  split; [reflexivity|].
  exact (update_payload_presence
           [("description", JNull); ("completed_at", JInt 5)]
           (TaskUpdate.mk None (Some None) None None None)
           "description" None eq_refl).
Defined.

Lemma string_rule_none mn mx v :
  Spec.string_rule mn mx v = None -> exists s, Pydantic.str_field mn mx v = inr s.
Proof.
  unfold Spec.string_rule, Pydantic.str_field. destruct v; try discriminate.
  destruct (len s <? mn); [discriminate|].
  destruct (mx <? len s); [discriminate|]. intros _. now exists s.
Qed.

Lemma nullable_string_rule_none mx v :
  Spec.nullable (Spec.string_rule 0 mx) v = None ->
  exists o, Pydantic.optional (Pydantic.str_field 0 mx) v = inr o.
Proof.
  unfold Spec.nullable, Pydantic.optional.
  destruct v; try (intros _; eexists; reflexivity);
    intros H; apply string_rule_none in H; destruct H as [s' ->];
    eexists; reflexivity.
Qed.

Lemma nullable_integer_rule_none str_as_int v :
  Spec.nullable (Spec.integer_rule str_as_int) v = None ->
  exists o, Pydantic.optional (Pydantic.int_field str_as_int) v = inr o.
Proof.
  unfold Spec.nullable, Spec.integer_rule, Pydantic.optional, Pydantic.int_field,
    Pydantic.float_as_int.
  destruct v as [|b|z|x|s|l|items];
    try discriminate; try (intros _; eexists; reflexivity).
  - destruct x as [m e|n|]; try discriminate.
    destruct (Pydantic.float_integral m e); [|discriminate].
    destruct (_ && _); [intros _; eexists; reflexivity|discriminate].
  - destruct (str_as_int s); [intros _; eexists; reflexivity|discriminate].
Qed.

Section CreateBodyAccepted.
Context (str_as_int : string -> option Z).

(** X13. A create body that is a JSON object is accepted exactly when it
    breaks none of the field constraints: title required and of 1 to 255
    characters, description at most 1000, status at most 50, priority at
    most 20, user_id at most 100, external_id an integer; description,
    user_id and external_id may be null. *)
Theorem create_body_accepted_iff (items : list (string * json)) :
  (exists task_data, TaskCreate.validate str_as_int (JDict items) = inr task_data)
  <-> forall field, Spec.violated str_as_int items field = None.
Proof.
  split.
  - intros [task_data V] field.
    destruct (Spec.violated str_as_int items field) as [rule|] eqn:E; [|reflexivity].
    destruct (violated_reported str_as_int items field rule E) as (errors & _ & V' & _).
    congruence.
  - intros N.
    pose proof (N "title") as N1. pose proof (N "description") as N2.
    pose proof (N "status") as N3. pose proof (N "priority") as N4.
    pose proof (N "user_id") as N5. pose proof (N "external_id") as N6.
    unfold Spec.violated in N1, N2, N3, N4, N5, N6.
    unfold TaskCreate.validate, Pydantic.field.
    destruct (dict_get "title" items) as [v1|]; [|discriminate N1].
    cbn in N1. apply string_rule_none in N1. destruct N1 as [a ->].
    destruct (dict_get "description" items) as [v2|];
      [cbn in N2; apply nullable_string_rule_none in N2; destruct N2 as [b ->]|].
    all: destruct (dict_get "status" items) as [v3|];
      [cbn in N3; apply string_rule_none in N3; destruct N3 as [c ->]|].
    all: destruct (dict_get "priority" items) as [v4|];
      [cbn in N4; apply string_rule_none in N4; destruct N4 as [d ->]|].
    all: destruct (dict_get "user_id" items) as [v5|];
      [cbn in N5; apply nullable_string_rule_none in N5; destruct N5 as [e ->]|].
    all: destruct (dict_get "external_id" items) as [v6|];
      [cbn in N6; apply nullable_integer_rule_none in N6; destruct N6 as [f ->]|].
    all: eexists; reflexivity.
Qed.

Lemma field_value {A} name items (validator : json -> Pydantic.FieldResult A) default a :
  Pydantic.field name items validator default = inr a ->
  match dict_get name items with
  | Some v => validator v = inr a
  | None => default = Some a
  end.
Proof.
  unfold Pydantic.field. destruct (dict_get name items) as [v|].
  - destruct (validator v) as [[ty m]|a']; [discriminate|].
    intros H; inversion H; reflexivity.
  - destruct default; [|discriminate]. intros H; inversion H; reflexivity.
Qed.

Lemma str_field_value mn mx v s : Pydantic.str_field mn mx v = inr s -> v = JStr s.
Proof.
  unfold Pydantic.str_field. destruct v; try discriminate.
  destruct (len s0 <? mn); [discriminate|].
  destruct (mx <? len s0); [discriminate|]. intros H; inversion H; reflexivity.
Qed.

Lemma optional_str_field_value mn mx v o :
  Pydantic.optional (Pydantic.str_field mn mx) v = inr o ->
  Spec.payload_value v = Some o.
Proof.
  unfold Pydantic.optional. destruct v; try discriminate.
  - intros H; inversion H; reflexivity.
  - destruct (Pydantic.str_field mn mx (JStr s)) as [?|s'] eqn:E; [discriminate|].
    apply str_field_value in E. inversion E; subst.
    intros H; inversion H; reflexivity.
Qed.

(** X14. What an accepted create body decodes to: the title is the body's
    string; status and priority are the body's strings, or "pending" and
    "medium" when the key is absent; description and user_id are the
    body's string, or None when the key is absent or null; external_id is
    None when the key is absent or null; and every value is within the
    bounds of the schema. *)
Theorem create_body_decodes (items : list (string * json)) (task_data : TaskCreate.t) :
  TaskCreate.validate str_as_int (JDict items) = inr task_data ->
  TaskCreate.valid task_data = true
  /\ dict_get "title" items = Some (JStr (TaskCreate.title task_data))
  /\ match dict_get "status" items with
     | Some v => v = JStr (TaskCreate.status task_data)
     | None => TaskCreate.status task_data = "pending"
     end
  /\ match dict_get "priority" items with
     | Some v => v = JStr (TaskCreate.priority task_data)
     | None => TaskCreate.priority task_data = "medium"
     end
  /\ match dict_get "description" items with
     | Some v => Spec.payload_value v = Some (TaskCreate.description task_data)
     | None => TaskCreate.description task_data = None
     end
  /\ match dict_get "user_id" items with
     | Some v => Spec.payload_value v = Some (TaskCreate.user_id task_data)
     | None => TaskCreate.user_id task_data = None
     end
  /\ match dict_get "external_id" items with
     | Some JNull | None => TaskCreate.external_id task_data = None
     | Some v => exists n, Pydantic.int_field str_as_int v = inr n
                           /\ TaskCreate.external_id task_data = Some n
     end.
Proof.
  intros V. split; [exact (validate_valid str_as_int _ _ V)|].
  unfold TaskCreate.validate in V.
  destruct (Pydantic.field "title" _ _ _) as [?|a] eqn:Ea;
  destruct (Pydantic.field "description" _ _ _) as [?|b] eqn:Eb;
  destruct (Pydantic.field "status" _ _ _) as [?|c] eqn:Ec;
  destruct (Pydantic.field "priority" _ _ _) as [?|d] eqn:Ed;
  destruct (Pydantic.field "user_id" _ _ _) as [?|e] eqn:Ee;
  destruct (Pydantic.field "external_id" _ _ _) as [?|f] eqn:Ef;
  try discriminate.
  inversion V; subst. clear V. cbn.
  apply field_value in Ea, Eb, Ec, Ed, Ee, Ef.
  repeat split.
  - destruct (dict_get "title" items) as [v|]; [|discriminate].
    apply str_field_value in Ea. now subst.
  - destruct (dict_get "status" items) as [v|]; [|now inversion Ec].
    now apply str_field_value in Ec.
  - destruct (dict_get "priority" items) as [v|]; [|now inversion Ed].
    now apply str_field_value in Ed.
  - destruct (dict_get "description" items) as [v|]; [|now inversion Eb].
    now apply optional_str_field_value in Eb.
  - destruct (dict_get "user_id" items) as [v|]; [|now inversion Ee].
    now apply optional_str_field_value in Ee.
  - destruct (dict_get "external_id" items) as [v|]; [|now inversion Ef].
    unfold Pydantic.optional in Ef.
    destruct v; try (now inversion Ef);
      (destruct (Pydantic.int_field str_as_int _) as [?|n] eqn:I; [discriminate|]);
      inversion Ef; subst; exists n; split; reflexivity.
Qed.

End CreateBodyAccepted.

Lemma create_body_decodes_witness :
  TaskCreate.validate Scenario.str_as_int
    (JDict [("title", JStr "Test Task"); ("description", JNull);
            ("external_id", JInt 7)])
  = inr (TaskCreate.mk "Test Task" None "pending" "medium" None (Some 7))
  /\ (TaskCreate.valid (TaskCreate.mk "Test Task" None "pending" "medium" None (Some 7))
      = true
      /\ Some (JStr "Test Task") = Some (JStr "Test Task")
      /\ "pending" = "pending"
      /\ "medium" = "medium"
      /\ Spec.payload_value JNull = Some None
      /\ @None string = None
      /\ exists n, Pydantic.int_field Scenario.str_as_int (JInt 7) = inr n
                   /\ Some 7 = Some n).
Proof.
  split; [reflexivity|].
  exact (create_body_decodes Scenario.str_as_int
           [("title", JStr "Test Task"); ("description", JNull);
            ("external_id", JInt 7)]
           (TaskCreate.mk "Test Task" None "pending" "medium" None (Some 7))
           eq_refl).
Defined.

(** ** The table across requests *)

Lemma NoDup_map_filter {A B} (g : A -> B) (f : A -> bool) (l : list A) :
  NoDup (map g l) -> NoDup (map g (filter f l)).
Proof.
  induction l as [|a l IH]; cbn; intros H; [constructor|].
  inversion H as [|x xs Hn Hd]; subst.
  destruct (f a); cbn; [|now apply IH].
  constructor; [|now apply IH].
  intros Hin. apply Hn. apply in_map_iff in Hin. destruct Hin as (y & E & Hy).
  apply in_map_iff. exists y. split; [exact E|].
  apply filter_In in Hy. exact (proj1 Hy).
Qed.

Lemma NoDup_snoc {A} (l : list A) (x : A) :
  NoDup l -> ~ In x l -> NoDup (l ++ [x]).
Proof.
  induction l as [|a l IH]; cbn; intros H N.
  - constructor; [intros []|constructor].
  - inversion H as [|y ys Hn Hd]; subst. constructor.
    + intros Hin. apply in_app_or in Hin. destruct Hin as [Hin|[<-|[]]].
      * exact (Hn Hin).
      * apply N. now left.
    + apply IH; [exact Hd|]. intros Hin. apply N. now right.
Qed.

Section Table.
Context (str_dict : json -> string) (str_as_int : string -> option Z).
Context (str_errors : list Pydantic.ErrorDetails -> string).
Context (base : string) (timeout : Z).

Local Notation "'APP'" := (Main.app str_dict str_as_int str_errors base timeout).
Local Notation "'SERVE'" := (Main.serve str_dict str_as_int str_errors base timeout).

Lemma app_table_ok request w :
  Spec.table_ok w -> Spec.table_ok (snd (APP request w)).
Proof.
  intros (D & V & B).
  destruct (app_rows str_dict str_as_int str_errors base timeout request w) as (N & R).
  cbv zeta in N, R. unfold Spec.table_ok.
  destruct R as [R|[[i R]|(t & R & I & N' & Vt & _)]]; rewrite R.
  - split; [exact D|]. split; [exact V|].
    intros t i Ht Hi. specialize (B t i Ht Hi). lia.
  - split; [now apply NoDup_map_filter|]. split.
    + rewrite Forall_forall in *. intros t Ht. apply V.
      apply filter_In in Ht. exact (proj1 Ht).
    + intros t j Ht Hj. apply filter_In in Ht.
      specialize (B t j (proj1 Ht) Hj). lia.
  - split; [|split].
    + rewrite map_app. cbn [map]. apply NoDup_snoc; [exact D|].
      intros Hin. apply in_map_iff in Hin. destruct Hin as (t0 & E & Ht0).
      rewrite I in E. specialize (B t0 _ Ht0 E). lia.
    + apply Forall_app. split; [exact V|]. constructor; [exact Vt|constructor].
    + intros t0 j Ht0 Hj. apply in_app_or in Ht0. destruct Ht0 as [Ht0|[<-|[]]].
      * specialize (B t0 j Ht0 Hj). lia.
      * rewrite I in Hj. inversion Hj. lia.
Qed.

(** X15. The table stays in good order: starting from a table whose rows
    have pairwise distinct ids, are valid rows and have ids below the
    sequence, after any run of requests the table is again such a table,
    and the sequence has not moved back. *)
Theorem serve_keeps_table_ok (requests : list Main.Request) (w : World) :
  Spec.table_ok w ->
  Spec.table_ok (snd (SERVE requests w))
  /\ next_id w <= next_id (snd (SERVE requests w)).
Proof.
  revert w. induction requests as [|request rest IH]; intros w T.
  - cbn. split; [exact T|lia].
  - cbn [Main.serve].
    pose proof (app_table_ok request w T) as T1.
    pose proof (proj1 (app_rows str_dict str_as_int str_errors base timeout
                         request w)) as N1.
    cbv zeta in N1.
    destruct (APP request w) as [response w1]. cbn [snd] in T1, N1.
    destruct (IH w1 T1) as [T2 N2].
    destruct (SERVE rest w1) as [responses w2]. cbn [snd] in *.
    split; [exact T2|lia].
Qed.

End Table.

Lemma serve_keeps_table_ok_witness :
  Spec.table_ok Scenario.one_task_world
  /\ (Spec.table_ok
        (snd (Scenario.serve
                [Main.POST_tasks (JDict [("title", JStr "Second")]);
                 Main.DELETE_task 1;
                 Main.PUT_task 2 (JDict [("status", JStr "completed")])]
                Scenario.one_task_world))
      /\ next_id Scenario.one_task_world
         <= next_id (snd (Scenario.serve
                            [Main.POST_tasks (JDict [("title", JStr "Second")]);
                             Main.DELETE_task 1;
                             Main.PUT_task 2 (JDict [("status", JStr "completed")])]
                            Scenario.one_task_world))).
Proof.
  assert (T : Spec.table_ok Scenario.one_task_world).
  { split; [|split].
    - repeat constructor. intros [].
    - repeat constructor.
    - intros t i [<-|[]] H. inversion H. reflexivity. }
  split; [exact T|].
  exact (serve_keeps_table_ok
           Scenario.str_dict Scenario.str_as_int Scenario.str_errors
           Scenario.base_url Scenario.timeout
           [Main.POST_tasks (JDict [("title", JStr "Second")]);
            Main.DELETE_task 1;
            Main.PUT_task 2 (JDict [("status", JStr "completed")])]
           Scenario.one_task_world T).
Defined.

(** ** Listing, page by page *)









(** ** Rendering the errors of a request *)

Lemma fold_get_compliant key items : forall acc v,
  forallb (fun kv : string * json => json_compliant (snd kv)) items = true ->
  (forall x, acc = Some x -> json_compliant x = true) ->
  fold_left (fun acc kv => if String.eqb (fst kv) key then Some (snd kv) else acc)
            items acc = Some v ->
  json_compliant v = true.
Proof.
  induction items as [|[k x] items IH]; intros acc v F A H.
  - exact (A v H).
  - cbn [forallb snd] in F. apply andb_true_iff in F. destruct F as [Fx F].
    cbn [fold_left fst snd] in H. apply (IH _ v F) in H; [exact H|].
    intros y E. destruct (String.eqb k key); [inversion E; subst; exact Fx|].
    exact (A y E).
Qed.

Lemma dict_get_compliant key items v :
  json_compliant (JDict items) = true ->
  dict_get key items = Some v ->
  json_compliant v = true.
Proof.
  intros C G. apply (fold_get_compliant key items None v C); [discriminate|exact G].
Qed.

Lemma loc_compliant l : forallb json_compliant (map JStr l) = true.
Proof. induction l as [|s l IH]; [reflexivity|exact IH]. Qed.

Lemma error_entry_compliant e :
  (forall v, Pydantic.input e = Some v -> json_compliant v = true) ->
  json_compliant (error_entry e) = true.
Proof.
  intros H. destruct e as [l m t i]. cbn [Pydantic.input] in H.
  change (forallb json_compliant (map JStr l)
          && (true && (true && (json_compliant
                                  match i with Some v => v | None => JStr "N/A" end
                                && true))) = true).
  rewrite loc_compliant. destruct i as [v|]; [|reflexivity].
  rewrite (H v eq_refl). reflexivity.
Qed.

Lemma entries_compliant errors :
  Forall (fun e => json_compliant (error_entry e) = true) errors ->
  forallb json_compliant (map error_entry errors) = true.
Proof.
  induction 1 as [|e errors H _ IH]; [reflexivity|].
  cbn [map forallb]. now rewrite H, IH.
Qed.

Lemma field_errors_compliant {A} name items
    (validator : json -> Pydantic.FieldResult A) default :
  json_compliant (JDict items) = true ->
  Forall (fun e => json_compliant (error_entry e) = true)
         (Pydantic.errors_of (Pydantic.field name items validator default)).
Proof.
  intros C. unfold Pydantic.field.
  destruct (dict_get name items) as [v|] eqn:G.
  - destruct (validator v) as [[ty m]|a]; [|constructor].
    constructor; [|constructor]. apply error_entry_compliant.
    intros v' E. inversion E; subst. exact (dict_get_compliant _ _ _ C G).
  - destruct default; [constructor|].
    constructor; [|constructor]. apply error_entry_compliant.
    intros v' E. inversion E; subst. exact C.
Qed.

Lemma field_set_errors_compliant {A} name items
    (validator : json -> Pydantic.FieldResult A) :
  json_compliant (JDict items) = true ->
  Forall (fun e => json_compliant (error_entry e) = true)
         (Pydantic.errors_of (Pydantic.field_set name items validator)).
Proof.
  intros C. unfold Pydantic.field_set.
  destruct (dict_get name items) as [v|] eqn:G; [|constructor].
  destruct (validator v) as [[ty m]|a]; [|constructor].
  constructor; [|constructor]. apply error_entry_compliant.
  intros v' E. inversion E; subst. exact (dict_get_compliant _ _ _ C G).
Qed.

Lemma body_error_compliant body :
  json_compliant body = true ->
  forallb json_compliant (map error_entry [Pydantic.not_an_object body]) = true.
Proof.
  intros C. apply entries_compliant. constructor; [|constructor].
  apply error_entry_compliant. intros v E. inversion E; subst. exact C.
Qed.

(** The errors of a create body that renders all render. *)
Lemma create_errors_compliant str_as_int body errors :
  json_compliant body = true ->
  TaskCreate.validate str_as_int body = inl errors ->
  forallb json_compliant (map error_entry errors) = true.
Proof.
  intros C.
  destruct body as [|b|z|x|s|l|items];
    try (intros H; inversion H; subst; first [reflexivity|exact (body_error_compliant _ C)]).
  pose proof (field_errors_compliant "title" items (Pydantic.str_field 1 255) None C)
    as F1.
  pose proof (field_errors_compliant "description" items
                (Pydantic.optional (Pydantic.str_field 0 1000)) (Some None) C) as F2.
  pose proof (field_errors_compliant "status" items (Pydantic.str_field 0 50)
                (Some "pending") C) as F3.
  pose proof (field_errors_compliant "priority" items (Pydantic.str_field 0 20)
                (Some "medium") C) as F4.
  pose proof (field_errors_compliant "user_id" items
                (Pydantic.optional (Pydantic.str_field 0 100)) (Some None) C) as F5.
  pose proof (field_errors_compliant "external_id" items
                (Pydantic.optional (Pydantic.int_field str_as_int)) (Some None) C)
    as F6.
  unfold TaskCreate.validate.
  destruct (Pydantic.field "title" _ _ _);
  destruct (Pydantic.field "description" _ _ _);
  destruct (Pydantic.field "status" _ _ _);
  destruct (Pydantic.field "priority" _ _ _);
  destruct (Pydantic.field "user_id" _ _ _);
  destruct (Pydantic.field "external_id" _ _ _);
  try discriminate;
  intros H; inversion H; subst; apply entries_compliant;
  cbn [Pydantic.errors_of] in *;
  repeat (apply Forall_app; split); assumption.
Qed.

(** So do the errors of an update body that renders. *)
Lemma update_errors_compliant body errors :
  json_compliant body = true ->
  TaskUpdate.validate body = inl errors ->
  forallb json_compliant (map error_entry errors) = true.
Proof.
  intros C.
  destruct body as [|b|z|x|s|l|items];
    try (intros H; inversion H; subst; first [reflexivity|exact (body_error_compliant _ C)]).
  pose proof (field_set_errors_compliant "title" items
                (Pydantic.optional (Pydantic.str_field 1 255)) C) as F1.
  pose proof (field_set_errors_compliant "description" items
                (Pydantic.optional (Pydantic.str_field 0 1000)) C) as F2.
  pose proof (field_set_errors_compliant "status" items
                (Pydantic.optional (Pydantic.str_field 0 50)) C) as F3.
  pose proof (field_set_errors_compliant "priority" items
                (Pydantic.optional (Pydantic.str_field 0 20)) C) as F4.
  pose proof (field_set_errors_compliant "user_id" items
                (Pydantic.optional (Pydantic.str_field 0 100)) C) as F5.
  unfold TaskUpdate.validate.
  destruct (Pydantic.field_set "title" _ _);
  destruct (Pydantic.field_set "description" _ _);
  destruct (Pydantic.field_set "status" _ _);
  destruct (Pydantic.field_set "priority" _ _);
  destruct (Pydantic.field_set "user_id" _ _);
  try discriminate;
  intros H; inversion H; subst; apply entries_compliant;
  cbn [Pydantic.errors_of] in *;
  repeat (apply Forall_app; split); assumption.
Qed.


(** A refused query parameter gives one error, which echoes the text of
    the query string. *)
Lemma query_int_inl str_as_int name default ge le raw errors :
  Main.query_int str_as_int name default ge le raw = inl errors ->
  exists text message type,
    raw = Some text
    /\ errors = [Pydantic.mkError ["query"; name] message type (Some (JStr text))]
    /\ In type ["int_parsing"; "greater_than_equal"; "less_than_equal"].
Proof.
  unfold Main.query_int. destruct raw as [text|]; [|discriminate].
  destruct (str_as_int text) as [n|].
  - destruct (n <? ge).
    + intros H; inversion H; subst. eexists _, _, _.
      split; [reflexivity|]. split; [reflexivity|cbn; auto].
    + destruct le as [bound|]; [|discriminate].
      destruct (bound <? n); [|discriminate].
      intros H; inversion H; subst. eexists _, _, _.
      split; [reflexivity|]. split; [reflexivity|cbn; auto].
  - intros H; inversion H; subst. eexists _, _, _.
    split; [reflexivity|]. split; [reflexivity|cbn; auto].
Qed.

Lemma query_errors_compliant str_as_int name default ge le raw :
  Forall (fun e => json_compliant (error_entry e) = true)
         (Pydantic.errors_of (Main.query_int str_as_int name default ge le raw)).
Proof.
  destruct (Main.query_int str_as_int name default ge le raw) as [errors|z] eqn:Q;
    [|constructor].
  destruct (query_int_inl _ _ _ _ _ _ _ Q) as (text & m & ty & _ & -> & _).
  constructor; [reflexivity|constructor].
Qed.

(** ** What the routes answer *)

Lemma to_response_raises t w e :
  fst (Tasks.to_response t w) = Raise e ->
  e = ValidationError "validation error for TaskResponse".
Proof.
  unfold Tasks.to_response, lift, TaskResponse.new. cbn [fst].
  destruct (Task.id t), (Task.title t), (Task.status t), (Task.priority t);
    try (intros H; inversion H; reflexivity).
  destruct (_ && _); intros H; inversion H; reflexivity.
Qed.

Lemma get_task_outcome task_id w :
  (exists r, fst (Tasks.get_task task_id w) = Ok r)
  \/ (exists d, fst (Tasks.get_task task_id w) = Raise (HTTPException 404 d))
  \/ (exists d, fst (Tasks.get_task task_id w) = Raise (HTTPException 500 d)).
Proof.
  unfold Tasks.get_task. run.
  destruct (find _ _) as [t|]; [|cbn; right; left; eexists; reflexivity].
  match goal with
  | |- context [Tasks.to_response t ?W] =>
      pose proof (to_response_raises t W) as R;
      destruct (Tasks.to_response t W) as [[r|e] w1]
  end; cbn.
  - left. eexists; reflexivity.
  - right; right. rewrite (R e eq_refl). eexists; reflexivity.
Qed.

Lemma list_tasks_outcome skip limit sf pf w :
  (exists page, fst (Tasks.list_tasks skip limit sf pf w) = Ok page)
  \/ (exists d, fst (Tasks.list_tasks skip limit sf pf w) = Raise (HTTPException 500 d)).
Proof.
  unfold Tasks.list_tasks. run. rewrite exec_all_total, exec_all_page.
  destruct (_ && _); [|right; eexists; reflexivity].
  match goal with
  | |- context [Tasks.mapM ?f ?l ?W] => destruct (Tasks.mapM f l W) as [[rs|e] w1]
  end; cbn.
  - destruct (Z.eqb limit 0); cbn; [right|left]; eexists; reflexivity.
  - right. eexists; reflexivity.
Qed.

Section Answers.
Context (str_dict : json -> string) (str_as_int : string -> option Z).
Context (str_errors : list Pydantic.ErrorDetails -> string).
Context (base : string) (timeout : Z).

Local Notation "'APP'" := (Main.app str_dict str_as_int str_errors base timeout).

(** X18. Every answer of the application to a task request has one of
    six shapes: 201 with the created task; 200 with a task or with a
    page; 204 with no body; 422 with the list of violations and
    error_code VALIDATION_ERROR; 404 or 500 with a body that holds a
    detail string and nothing else; 500 with error_code INTERNAL_ERROR.
    The last one is given only to a create or update request whose body
    holds a NaN or an infinity and is refused by validation. No answer
    carries EXTERNAL_API_ERROR: a failure of the enrichment call never
    reaches the client, and every failure inside a route is turned into a
    plain 500 by the route itself. *)
Theorem app_answers (request : Main.Request) (w : World) :
  let answer := fst (APP request w) in
  (status_code answer = 201 /\ exists task, body answer = TaskBody task)
  \/ (status_code answer = 200
      /\ ((exists task, body answer = TaskBody task)
          \/ (exists page, body answer = TaskListBody page)))
  \/ (status_code answer = 204 /\ body answer = NoBody)
  \/ (status_code answer = 422
      /\ exists entries,
           body answer
           = Content (JDict [("detail", JList entries);
                             ("error_code", JStr "VALIDATION_ERROR")]))
  \/ ((status_code answer = 404 \/ status_code answer = 500)
      /\ exists detail, body answer = Content (JDict [("detail", JStr detail)]))
  \/ (answer = mkJSONResponse 500
                 (Content (JDict [("detail", JStr "An internal server error occurred");
                                  ("error_code", JStr "INTERNAL_ERROR")]))
      /\ exists body0,
           json_compliant body0 = false
           /\ ((request = Main.POST_tasks body0
                /\ exists errors, TaskCreate.validate str_as_int body0 = inl errors)
               \/ exists task_id,
                    request = Main.PUT_task task_id body0
                    /\ exists errors, TaskUpdate.validate body0 = inl errors)).
Proof.
  assert (rendered : forall errors,
            forallb json_compliant (map error_entry errors) = true ->
            let answer :=
              fst (Main.handled (validation_exception_handler str_errors errors w)) in
            status_code answer = 422
            /\ exists entries,
                 body answer
                 = Content (JDict [("detail", JList entries);
                                   ("error_code", JStr "VALIDATION_ERROR")])).
  { intros errors C. cbv zeta.
    destruct (handled_validation str_errors errors w) as [_ H].
    rewrite C in H. rewrite H. split; [reflexivity|eexists; reflexivity]. }
  destruct request as [body0|task_id|task_id body0|task_id|skip limit sf pf];
    cbn [Main.app]; cbv zeta.
  - destruct (TaskCreate.validate str_as_int body0) as [errors|task_data] eqn:V.
    + destruct (forallb json_compliant (map error_entry errors)) eqn:C.
      * do 3 right. left. exact (rendered errors C).
      * do 5 right.
        destruct (handled_validation str_errors errors w) as [_ H].
        rewrite C in H. split; [exact H|]. exists body0. split.
        -- destruct (json_compliant body0) eqn:J; [|reflexivity].
           rewrite (create_errors_compliant str_as_int body0 errors J V) in C.
           discriminate C.
        -- left. split; [reflexivity|]. now exists errors.
    + apply validate_valid in V.
      destruct (create_task_outcome str_dict base timeout task_data w V)
        as [(task & w' & ->)|[E _]].
      * left. split; [reflexivity|eexists; reflexivity].
      * destruct (Tasks.create_task str_dict base timeout task_data w) as [r w1].
        cbn [fst] in E. subst r. cbn.
        do 4 right. left. split; [now right|eexists; reflexivity].
  - destruct (Tasks.get_task task_id w) as [r w1] eqn:E.
    destruct (get_task_outcome task_id w) as [[t H]|[[d H]|[d H]]];
      rewrite E in H; cbn [fst] in H; subst r; cbn.
    + right; left. split; [reflexivity|left; eexists; reflexivity].
    + do 4 right. left. split; [now left|eexists; reflexivity].
    + do 4 right. left. split; [now right|eexists; reflexivity].
  - destruct (TaskUpdate.validate body0) as [errors|task_data] eqn:V.
    + destruct (forallb json_compliant (map error_entry errors)) eqn:C.
      * do 3 right. left. exact (rendered errors C).
      * do 5 right.
        destruct (handled_validation str_errors errors w) as [_ H].
        rewrite C in H. split; [exact H|]. exists body0. split.
        -- destruct (json_compliant body0) eqn:J; [|reflexivity].
           rewrite (update_errors_compliant body0 errors J V) in C.
           discriminate C.
        -- right. exists task_id. split; [reflexivity|]. now exists errors.
    + destruct (find (Session.has_id task_id) (rows w)) as [t|] eqn:F.
      * rewrite (update_task_existing _ task_data _ _ F). cbn.
        do 4 right. left. split; [now right|eexists; reflexivity].
      * rewrite (update_task_missing _ task_data _ F). cbn.
        do 4 right. left. split; [now left|eexists; reflexivity].
  - destruct (find (Session.has_id task_id) (rows w)) as [t|] eqn:F.
    + rewrite (delete_task_existing _ _ _ F). cbn.
      do 2 right. left. split; reflexivity.
    + rewrite (delete_task_missing _ _ F). cbn.
      do 4 right. left. split; [now left|eexists; reflexivity].
  - pose proof (query_errors_compliant str_as_int "skip" 0 0 None skip) as Q1.
    pose proof (query_errors_compliant str_as_int "limit" 10 1 (Some 100) limit) as Q2.
    assert (Q : forallb json_compliant
                  (map error_entry
                     (Pydantic.errors_of (Main.query_int str_as_int "skip" 0 0 None skip)
                      ++ Pydantic.errors_of
                           (Main.query_int str_as_int "limit" 10 1 (Some 100) limit))%list)
                = true)
      by (apply entries_compliant, Forall_app; split; assumption).
    destruct (Main.query_int str_as_int "skip" 0 0 None skip) as [e1|skip'];
      [do 3 right; left; exact (rendered _ Q)|].
    destruct (Main.query_int str_as_int "limit" 10 1 (Some 100) limit) as [e2|limit'];
      [do 3 right; left; exact (rendered _ Q)|].
    destruct (Tasks.list_tasks skip' limit' sf pf w) as [r w1] eqn:E.
    destruct (list_tasks_outcome skip' limit' sf pf w) as [[page H]|[d H]];
      rewrite E in H; cbn [fst] in H; subst r; cbn.
    + right; left. split; [reflexivity|right; eexists; reflexivity].
    + do 4 right. left. split; [now right|eexists; reflexivity].
Qed.


End Answers.


(** ** Requests one after the other *)

(** X20. After a successful delete_task, a second delete_task and an
    update_task on the same id both fail with the 404 not-found error and
    change nothing. *)
Theorem delete_twice (task_id : Z) (task_data : TaskUpdate.t) (w : World) :
  fst (Tasks.delete_task task_id w) = Ok tt ->
  let w' := snd (Tasks.delete_task task_id w) in
  Tasks.delete_task task_id w'
  = (Raise (HTTPException 404 ("Task with ID " ++ str_int task_id ++ " not found")), w')
  /\ Tasks.update_task task_id task_data w'
     = (Raise (HTTPException 404 ("Task with ID " ++ str_int task_id ++ " not found")),
        w').
Proof.
  intros D. cbv zeta.
  destruct (delete_task_removes w task_id D) as [F _].
  split; [exact (delete_task_missing _ _ F)|exact (update_task_missing _ _ _ F)].
Qed.

Lemma delete_twice_witness :
  fst (Tasks.delete_task 1 Scenario.one_task_world) = Ok tt
  /\ let w' := snd (Tasks.delete_task 1 Scenario.one_task_world) in
     Tasks.delete_task 1 w'
     = (Raise (HTTPException 404 ("Task with ID " ++ str_int 1 ++ " not found")), w')
     /\ Tasks.update_task 1 Scenario.status_completed w'
        = (Raise (HTTPException 404 ("Task with ID " ++ str_int 1 ++ " not found")),
           w').
Proof.
  split; [reflexivity|].
  exact (delete_twice 1 Scenario.status_completed Scenario.one_task_world eq_refl).
Defined.




(** ** A refused create body *)

Lemma field_reports {A} name items (validator : json -> Pydantic.FieldResult A)
    (default : option A) (rule : json -> option Spec.Rule) :
  (forall v r, rule v = Some r ->
               exists ty m, validator v = inl (ty, m) /\ Spec.reported_as r ty) ->
  (forall v, rule v = None -> exists a, validator v = inr a) ->
  match match dict_get name items with
        | Some v => rule v
        | None => match default with
                  | Some _ => None
                  | None => Some Spec.Required
                  end
        end with
  | Some r =>
      exists ty m,
        Spec.reported_as r ty
        /\ Pydantic.errors_of (Pydantic.field name items validator default)
           = [Pydantic.mkError ["body"; name] m ty (Some (Spec.offending items name))]
  | None => Pydantic.errors_of (Pydantic.field name items validator default) = []
  end.
Proof.
  intros R N. unfold Pydantic.field, Spec.offending.
  destruct (dict_get name items) as [v|].
  - destruct (rule v) as [r|] eqn:E.
    + destruct (R v r E) as (ty & m & -> & P).
      exists ty, m. split; [exact P|reflexivity].
    + destruct (N v E) as [a ->]. reflexivity.
  - destruct default; [reflexivity|].
    eexists _, _. split; [|reflexivity]. reflexivity.
Qed.

Lemma Forall2_map_r {A B C} (R : A -> B -> Prop) (R' : A -> C -> Prop)
    (f : B -> C) l l' :
  (forall a b, R a b -> R' a (f b)) ->
  Forall2 R l l' -> Forall2 R' l (map f l').
Proof.
  intros H. induction 1; cbn; constructor; auto.
Qed.

Section Rejected.
Context (str_dict : json -> string) (str_as_int : string -> option Z).
Context (str_errors : list Pydantic.ErrorDetails -> string).
Context (base : string) (timeout : Z).

(** Field by field, the errors pydantic collects are the ones the rules
    of the specification call for. *)
Lemma create_fields_report items :
  Spec.field_report str_as_int items "title"
    (Pydantic.errors_of (Pydantic.field "title" items (Pydantic.str_field 1 255) None))
  /\ Spec.field_report str_as_int items "description"
       (Pydantic.errors_of
          (Pydantic.field "description" items
             (Pydantic.optional (Pydantic.str_field 0 1000)) (Some None)))
  /\ Spec.field_report str_as_int items "status"
       (Pydantic.errors_of
          (Pydantic.field "status" items (Pydantic.str_field 0 50) (Some "pending")))
  /\ Spec.field_report str_as_int items "priority"
       (Pydantic.errors_of
          (Pydantic.field "priority" items (Pydantic.str_field 0 20) (Some "medium")))
  /\ Spec.field_report str_as_int items "user_id"
       (Pydantic.errors_of
          (Pydantic.field "user_id" items
             (Pydantic.optional (Pydantic.str_field 0 100)) (Some None)))
  /\ Spec.field_report str_as_int items "external_id"
       (Pydantic.errors_of
          (Pydantic.field "external_id" items
             (Pydantic.optional (Pydantic.int_field str_as_int)) (Some None))).
Proof.
  split; [|split; [|split; [|split; [|split]]]].
  - exact (field_reports "title" items (Pydantic.str_field 1 255) None
             (Spec.string_rule 1 255)
             (string_rule_reported 1 255) (string_rule_none 1 255)).
  - exact (field_reports "description" items
             (Pydantic.optional (Pydantic.str_field 0 1000)) (Some None)
             (Spec.nullable (Spec.string_rule 0 1000))
             (nullable_string_rule_reported 1000) (nullable_string_rule_none 1000)).
  - exact (field_reports "status" items (Pydantic.str_field 0 50) (Some "pending")
             (Spec.string_rule 0 50)
             (string_rule_reported 0 50) (string_rule_none 0 50)).
  - exact (field_reports "priority" items (Pydantic.str_field 0 20) (Some "medium")
             (Spec.string_rule 0 20)
             (string_rule_reported 0 20) (string_rule_none 0 20)).
  - exact (field_reports "user_id" items
             (Pydantic.optional (Pydantic.str_field 0 100)) (Some None)
             (Spec.nullable (Spec.string_rule 0 100))
             (nullable_string_rule_reported 100) (nullable_string_rule_none 100)).
  - exact (field_reports "external_id" items
             (Pydantic.optional (Pydantic.int_field str_as_int)) (Some None)
             (Spec.nullable (Spec.integer_rule str_as_int))
             (nullable_integer_rule_reported str_as_int)
             (nullable_integer_rule_none str_as_int)).
Qed.

(** A body that breaks a rule is refused with exactly one error for each
    field that breaks one, in the order of the schema. *)
Lemma create_errors_report items :
  Spec.violating str_as_int items <> [] ->
  exists errors,
    TaskCreate.validate str_as_int (JDict items) = inl errors
    /\ Forall2 (fun field e =>
                  exists rule ty m,
                    Spec.violated str_as_int items field = Some rule
                    /\ Spec.reported_as rule ty
                    /\ e = Pydantic.mkError ["body"; field] m ty
                                            (Some (Spec.offending items field)))
               (Spec.violating str_as_int items) errors.
Proof.
  intros NE.
  destruct (create_fields_report items) as (H1 & H2 & H3 & H4 & H5 & H6).
  pose proof (validate_collects str_as_int items) as VC. cbv zeta in VC.
  unfold Spec.field_report in H1, H2, H3, H4, H5, H6.
  unfold Spec.violating, Spec.create_fields in *. cbn [filter] in *.
  destruct (Spec.violated str_as_int items "title") as [r1|] eqn:E1;
  destruct (Spec.violated str_as_int items "description") as [r2|] eqn:E2;
  destruct (Spec.violated str_as_int items "status") as [r3|] eqn:E3;
  destruct (Spec.violated str_as_int items "priority") as [r4|] eqn:E4;
  destruct (Spec.violated str_as_int items "user_id") as [r5|] eqn:E5;
  destruct (Spec.violated str_as_int items "external_id") as [r6|] eqn:E6;
  try (exfalso; apply NE; reflexivity).
  all: repeat match goal with
              | H : exists ty m, _ /\ _ |- _ =>
                  let ty := fresh "ty" in
                  let m := fresh "m" in
                  let P := fresh "P" in
                  let E := fresh "E" in
                  destruct H as (ty & m & P & E)
              end.
  all: repeat match goal with
              | E : Pydantic.errors_of _ = _ |- _ => rewrite E in VC; clear E
              end.
  all: cbn [List.app] in VC.
  all: eexists; split; [eapply VC; left; reflexivity|].
  all: repeat (constructor;
               [eexists _, _, _;
                split; [eassumption|split; [eassumption|reflexivity]]|]).
  all: constructor.
Qed.

(** X22. A create body that is a JSON object without NaN or infinity and
    breaks the rule of at least one field is answered 422 with error_code
    VALIDATION_ERROR, and the detail lists the violations exactly: one
    entry for each field that breaks its rule and no other entry, in the
    order of the schema, each entry holding the location of the field, a
    message, the name of the broken rule and the offending input. Nothing
    is stored. *)
Theorem rejected_create_body_lists_the_violations
    (items : list (string * json)) (w : World) :
  Spec.violating str_as_int items <> [] ->
  json_compliant (JDict items) = true ->
  let run := Main.app str_dict str_as_int str_errors base timeout
                      (Main.POST_tasks (JDict items)) w in
  exists entries,
    fst run
    = mkJSONResponse
        422
        (Content (JDict [("detail", JList entries);
                         ("error_code", JStr "VALIDATION_ERROR")]))
    /\ Forall2 (fun field entry =>
                  exists rule,
                    Spec.violated str_as_int items field = Some rule
                    /\ Spec.reports items rule field entry)
               (Spec.violating str_as_int items) entries
    /\ Spec.same_table w (snd run).
Proof.
  intros NE C. cbv zeta.
  destruct (create_errors_report items NE) as (errors & V & F).
  cbn [Main.app]. rewrite V.
  destruct (handled_validation str_errors errors w) as [T H].
  rewrite (create_errors_compliant str_as_int _ _ C V) in H.
  exists (map error_entry errors). split; [exact H|]. split; [|exact T].
  revert F. apply Forall2_map_r.
  intros field e (rule & ty & m & Ev & P & ->).
  exists rule. split; [exact Ev|]. exists ty, m. split; [exact P|reflexivity].
Qed.

End Rejected.

Lemma rejected_create_body_lists_the_violations_witness :
  Spec.violating Scenario.str_as_int
    [("title", JStr ""); ("status", JNull); ("external_id", JList [])] <> []
  /\ json_compliant
       (JDict [("title", JStr ""); ("status", JNull); ("external_id", JList [])])
     = true
  /\ exists entries,
       fst (Scenario.app
              (Main.POST_tasks
                 (JDict [("title", JStr ""); ("status", JNull);
                         ("external_id", JList [])]))
              Scenario.empty_world)
       = mkJSONResponse
           422
           (Content (JDict [("detail", JList entries);
                            ("error_code", JStr "VALIDATION_ERROR")]))
       /\ Forall2 (fun field entry =>
                     exists rule,
                       Spec.violated Scenario.str_as_int
                         [("title", JStr ""); ("status", JNull);
                          ("external_id", JList [])] field = Some rule
                       /\ Spec.reports
                            [("title", JStr ""); ("status", JNull);
                             ("external_id", JList [])] rule field entry)
                  (Spec.violating Scenario.str_as_int
                     [("title", JStr ""); ("status", JNull);
                      ("external_id", JList [])])
                  entries
       /\ Spec.same_table
            Scenario.empty_world
            (snd (Scenario.app
                    (Main.POST_tasks
                       (JDict [("title", JStr ""); ("status", JNull);
                               ("external_id", JList [])]))
                    Scenario.empty_world)).
Proof.
  assert (NE : Spec.violating Scenario.str_as_int
                 [("title", JStr ""); ("status", JNull); ("external_id", JList [])]
               <> []) by (vm_compute; discriminate).
  split; [exact NE|]. split; [reflexivity|].
  exact (rejected_create_body_lists_the_violations
           Scenario.str_dict Scenario.str_as_int Scenario.str_errors
           Scenario.base_url Scenario.timeout
           [("title", JStr ""); ("status", JNull); ("external_id", JList [])]
           Scenario.empty_world NE eq_refl).
Defined.
